(** * TRACE: the variant interval rewriter

    A shallow embedding of the three converters of the TRACE pipeline that
    rewrite structural-variant records into genomic intervals:

    - [Vcf2bed]         : src/vcf2bed.py          (VCF record -> BED interval, BND mates)
    - [BedProcessor]    : src/bed_processor.py    (flank expansion by SVTYPE)
    - [SquashIntersect] : src/squash_intersect.py (aggregation of rows by key)

    Modelling conventions.
    - A Python [str] is a [string]; its characters are the code points
      below 256, so that [\d] is exactly ['0'..'9'] and [str.isspace] is the
      set listed in [Py.isspace].
    - A Python [int] is a [Z] (unbounded); the interpreter's optional cap on
      the number of digits accepted by [int()] is not modelled. The white
      space [int()] passes over around a literal is the set listed in
      [Py.int_space], which is smaller than that of [str.isspace].
    - A text file opened for reading is the list of its lines, each line
      carrying its terminating line feed ([Py.readlines]).
    - Exceptions are explicit: a step returns either the next state or the
      exception it raised. *)

From Stdlib Require Import ZArith List String Ascii Bool Lia Permutation.
From Stdlib Require Import Decimal DecimalString DecimalZ.
Import ListNotations.

Local Open Scope string_scope.
Local Open Scope Z_scope.

(* ================================================================== *)
(** * Python strings and integers *)
(* ================================================================== *)

Module Py.

Definition TAB : ascii := "009"%char.
Definition LF : ascii := "010"%char.

(** [str.isspace] on one character (code points below 256). *)
Definition isspace (c : ascii) : bool :=
  let n := nat_of_ascii c in
  (((9 <=? n) && (n <=? 13)) || ((28 <=? n) && (n <=? 32))
   || (n =? 133) || (n =? 160))%nat.

(** [\d] on one character (code points below 256). *)
Definition isdigit (c : ascii) : bool :=
  let n := nat_of_ascii c in ((48 <=? n) && (n <=? 57))%nat.

Fixpoint lstrip (s : string) : string :=
  match s with
  | EmptyString => EmptyString
  | String c tl => if isspace c then lstrip tl else s
  end.

Fixpoint rstrip (s : string) : string :=
  match s with
  | EmptyString => EmptyString
  | String c tl =>
      match rstrip tl with
      | EmptyString => if isspace c then EmptyString else String c EmptyString
      | r => String c r
      end
  end.

(** [s.strip()] *)
Definition strip (s : string) : string := lstrip (rstrip s).

(** [s.startswith(p)] *)
Definition startswith (s p : string) : bool := prefix p s.

(** [sub in s] *)
Fixpoint contains (sub s : string) : bool :=
  prefix sub s ||
  match s with
  | EmptyString => false
  | String _ tl => contains sub tl
  end.

(** The longest prefix of [s] whose characters satisfy [p], and the rest. *)
Fixpoint span (p : ascii -> bool) (s : string) : string * string :=
  match s with
  | EmptyString => (EmptyString, EmptyString)
  | String c tl =>
      if p c then let '(a, b) := span p tl in (String c a, b)
      else (EmptyString, s)
  end.

Fixpoint forallb (p : ascii -> bool) (s : string) : bool :=
  match s with
  | EmptyString => true
  | String c tl => p c && forallb p tl
  end.

(** [s.split(sep)] for a one-character separator. *)
Fixpoint split_char (sep : ascii) (s : string) : list string :=
  match s with
  | EmptyString => [EmptyString]
  | String c tl =>
      if Ascii.eqb c sep then EmptyString :: split_char sep tl
      else match split_char sep tl with
           | h :: t => String c h :: t
           | [] => [String c EmptyString]
           end
  end.

(** [s.split(sep)] for any separator; [skip] counts the characters of a
    separator just recognised that are still to be passed over. *)
Fixpoint split_go (sep : string) (skip : nat) (cur s : string) : list string :=
  match s with
  | EmptyString => [cur]
  | String c tl =>
      match skip with
      | S k => split_go sep k cur tl
      | O =>
          if prefix sep s
          then cur :: split_go sep (Nat.pred (String.length sep)) EmptyString tl
          else split_go sep O (cur ++ String c EmptyString) tl
      end
  end.

(** [None] stands for the ValueError raised on an empty separator. *)
Definition split (s sep : string) : option (list string) :=
  match sep with
  | EmptyString => None
  | _ => Some (split_go sep O EmptyString s)
  end.

(** [sep.join(l)] *)
Fixpoint join (sep : string) (l : list string) : string :=
  match l with
  | [] => EmptyString
  | [x] => x
  | x :: rest => x ++ sep ++ join sep rest
  end.

(** [l[i]] for an index known to be in range; [""] stands for IndexError
    and is never reached in the embedded code, which checks [len] first. *)
Definition item (l : list string) (i : nat) : string := nth i l EmptyString.

(** [l[i] = v] on a copy of [l] (no effect out of range; the embedded code
    only writes indices below a checked length). *)
Fixpoint set_item (l : list string) (i : nat) (v : string) : list string :=
  match l, i with
  | [], _ => []
  | _ :: tl, O => v :: tl
  | x :: tl, S k => x :: set_item tl k v
  end.

(** The digits of an [int()] literal: digits with single underscores
    between them. [prev] tells whether the previous character was a digit. *)
Fixpoint int_digits (prev : bool) (s : string) : option string :=
  match s with
  | EmptyString => if prev then Some EmptyString else None
  | String c tl =>
      if isdigit c then option_map (String c) (int_digits true tl)
      else if Ascii.eqb c "_" && prev then int_digits false tl
      else None
  end.

Definition digits_value (ds : string) : option Z :=
  match NilEmpty.uint_of_string ds with
  | Some Nil => None
  | Some u => Some (Z.of_uint u)
  | None => None
  end.

(** The white space [int()] passes over around a literal: the ASCII
    white space of the C locale, and the two characters above 127 that
    [int()] turns into a space before it reads the literal. The
    separators [0x1c..0x1f], which [str.strip] removes, are not among
    them: [int] raises ValueError on a literal padded with one. *)
Definition int_space (c : ascii) : bool :=
  let n := nat_of_ascii c in
  (((9 <=? n) && (n <=? 13)) || (n =? 32) || (n =? 133) || (n =? 160))%nat.

Fixpoint int_lstrip (s : string) : string :=
  match s with
  | EmptyString => EmptyString
  | String c tl => if int_space c then int_lstrip tl else s
  end.

Fixpoint int_rstrip (s : string) : string :=
  match s with
  | EmptyString => EmptyString
  | String c tl =>
      match int_rstrip tl with
      | EmptyString => if int_space c then EmptyString else String c EmptyString
      | r => String c r
      end
  end.

Definition int_strip (s : string) : string := int_lstrip (int_rstrip s).

(** [int(s)]: [None] stands for ValueError. *)
Definition int (s : string) : option Z :=
  let t := int_strip s in
  let '(neg, body) :=
    match t with
    | String "-" r => (true, r)
    | String "+" r => (false, r)
    | _ => (false, t)
    end in
  match int_digits false body with
  | Some ds =>
      match digits_value ds with
      | Some v => Some (if neg then - v else v)
      | None => None
      end
  | None => None
  end.

(** [str(z)] *)
Definition str (z : Z) : string := NilZero.string_of_int (Z.to_int z).

(** The lines a text file yields when iterated: each ends with its line
    feed, except possibly the last. *)
Fixpoint readlines_go (cur : string) (s : string) : list string :=
  match s with
  | EmptyString => match cur with EmptyString => [] | _ => [cur] end
  | String c tl =>
      if Ascii.eqb c LF then (cur ++ String c EmptyString) :: readlines_go EmptyString tl
      else readlines_go (cur ++ String c EmptyString) tl
  end.

Definition readlines (text : string) : list string := readlines_go EmptyString text.

(** Predicates on strings used in the statements. *)

Definition lacks (c : ascii) (s : string) : bool :=
  forallb (fun x => negb (Ascii.eqb x c)) s.

Definition nonspace (c : ascii) : bool := negb (isspace c).

End Py.

(* ================================================================== *)
(** * Exceptions *)
(* ================================================================== *)

(** The exceptions the embedded code can raise. All of them are Python
    [ValueError]s; the constructor records which message it carries.
    - [InvalidLiteral s]: raised by [int(s)];
    - [InvalidBedFormat n k]: "Line n: Invalid BED format - expected at
      least 8 columns, got k";
    - [CoordinateError n e]: "Line n: Error parsing coordinates - e";
    - [EmptySeparator]: raised by [str.split] on an empty separator. *)
Inductive exn : Type :=
| InvalidLiteral (s : string)
| InvalidBedFormat (line_num : Z) (ncols : Z)
| CoordinateError (line_num : Z) (cause : exn)
| EmptySeparator.

Inductive result (A : Type) : Type :=
| Ok (a : A)
| Raise (e : exn).
Arguments Ok {A} a.
Arguments Raise {A} e.

Definition bind {A B : Type} (r : result A) (k : A -> result B) : result B :=
  match r with
  | Ok a => k a
  | Raise e => Raise e
  end.

Notation "x <- r ;; k" := (bind r (fun x => k))
  (at level 61, r at next level, right associativity).

(** [int(s)] as a statement: ValueError on a malformed literal. *)
Definition int_or_raise (s : string) : result Z :=
  match Py.int s with
  | Some z => Ok z
  | None => Raise (InvalidLiteral s)
  end.

(** Truthiness of an optional string: [None] and [""] are false. *)
Definition truthy (o : option string) : bool :=
  match o with
  | Some (String _ _) => true
  | _ => false
  end.

Definition opt_str_eqb (o : option string) (s : string) : bool :=
  match o with
  | Some t => String.eqb t s
  | None => false
  end.

(* ================================================================== *)
(** * The regular expression [NAME=([^;]+)] *)
(* ================================================================== *)

(** Both converters look a key up in an INFO column with
    [re.search('NAME=([^;]+)', info)]. *)
Module Re.

Import Py.

(** Remainder of [s] after the literal prefix [p], if [s] starts with it. *)
Fixpoint strip_prefix (p s : string) : option string :=
  match p, s with
  | EmptyString, _ => Some s
  | String a p', String b s' => if Ascii.eqb a b then strip_prefix p' s' else None
  | String _ _, EmptyString => None
  end.

Definition not_semicolon (c : ascii) : bool := negb (Ascii.eqb c ";").

(** The pattern [NAME=([^;]+)] matched at the very start of [s]:
    group 1 is the longest run of characters other than [;]. *)
Definition match_info_here (name s : string) : option string :=
  match strip_prefix (name ++ "=") s with
  | Some rest =>
      match fst (span not_semicolon rest) with
      | EmptyString => None
      | v => Some v
      end
  | None => None
  end.

(** [re.search]: the leftmost position at which the pattern matches. *)
Fixpoint search_info (name s : string) : option string :=
  match match_info_here name s with
  | Some v => Some v
  | None =>
      match s with
      | EmptyString => None
      | String _ tl => search_info name tl
      end
  end.

Definition semi : ascii := ";"%char.

(** The INFO column made of the given entries. *)
Definition info_of (entries : list string) : string := join ";" entries.

End Re.

(* ================================================================== *)
(** * src/vcf2bed.py *)
(* ================================================================== *)

Module Vcf2bed.

Import Py Re.

(** [extract_info_field(info_string, field_name)], for a field name made
    of literal characters (the callers pass SVTYPE, END and SVLEN). *)
Definition extract_info_field (info_string field_name : string) : option string :=
  search_info field_name info_string.

Definition isbase (c : ascii) : bool :=
  Ascii.eqb c "A" || Ascii.eqb c "C" || Ascii.eqb c "G"
  || Ascii.eqb c "T" || Ascii.eqb c "N".

Definition isbracket (c : ascii) : bool :=
  Ascii.eqb c "[" || Ascii.eqb c "]".

Definition not_colon (c : ascii) : bool := negb (Ascii.eqb c ":").

(** [$] without MULTILINE: the end of the string, or just before a line
    feed that ends the string. *)
Definition at_end (s : string) : bool :=
  match s with
  | EmptyString => true
  | String c EmptyString => Ascii.eqb c LF
  | _ => false
  end.

(** The common middle of the three patterns, [([^:]+):(\d+)[\[\]]],
    matched at the start of [s]: groups 1 and 2 and what follows. Each
    repetition is greedy and is followed by a character outside its class,
    so the longest run is the only one that can match. *)
Definition match_mate (s : string) : option (string * string * string) :=
  let '(chrom, r1) := span not_colon s in
  match chrom, r1 with
  | String _ _, String c r2 =>
      if Ascii.eqb c ":" then
        let '(digits, r3) := span isdigit r2 in
        match digits, r3 with
        | String _ _, String b r4 =>
            if isbracket b then Some (chrom, digits, r4) else None
        | _, _ => None
        end
      else None
  | _, _ => None
  end.

(** Pattern 1: [^[ACGTN]+[\[\]]([^:]+):(\d+)[\[\]]$] *)
Definition pattern1 (alt : string) : option (string * string) :=
  let '(bases, r) := span isbase alt in
  match bases, r with
  | String _ _, String b r' =>
      if isbracket b then
        match match_mate r' with
        | Some (chrom, digits, rest) =>
            if at_end rest then Some (chrom, digits) else None
        | None => None
        end
      else None
  | _, _ => None
  end.

(** Pattern 2: [^[\[\]]([^:]+):(\d+)[\[\]][ACGTN]+$] *)
Definition pattern2 (alt : string) : option (string * string) :=
  match alt with
  | String b r =>
      if isbracket b then
        match match_mate r with
        | Some (chrom, digits, rest) =>
            let '(bases, r') := span isbase rest in
            match bases with
            | String _ _ => if at_end r' then Some (chrom, digits) else None
            | EmptyString => None
            end
        | None => None
        end
      else None
  | EmptyString => None
  end.

(** Pattern 3: [^[\[\]]([^:]+):(\d+)[\[\]]$] *)
Definition pattern3 (alt : string) : option (string * string) :=
  match alt with
  | String b r =>
      if isbracket b then
        match match_mate r with
        | Some (chrom, digits, rest) =>
            if at_end rest then Some (chrom, digits) else None
        | None => None
        end
      else None
  | EmptyString => None
  end.

Definition patterns : list (string -> option (string * string)) :=
  [pattern1; pattern2; pattern3].

Fixpoint first_match (ps : list (string -> option (string * string)))
  (alt : string) : option (string * string) :=
  match ps with
  | [] => None
  | p :: rest =>
      match p alt with
      | Some m => Some m
      | None => first_match rest alt
      end
  end.

(** [parse_bnd_alt(alt_field)]: [Ok (Some (chrom, pos))], or [Ok None] for
    the pair [(None, None)]. *)
Definition parse_bnd_alt (alt_field : string) : result (option (string * Z)) :=
  match first_match patterns alt_field with
  | Some (chrom, digits) =>
      pos <- int_or_raise digits ;;
      Ok (Some (chrom, pos))
  | None => Ok None
  end.

(* ------------------------------------------------------------------ *)
(** ** [vcf_to_bed]: the conversion loop *)
(* ------------------------------------------------------------------ *)

(** What the converter prints on standard error. *)
Inductive event : Type :=
| WarnInsufficientFields (line_count : Z)
| ErrorMessage (e : exn).

(** The local variables of [vcf_to_bed] that survive an iteration, the
    text written to the output file (one element per [bed.write]) and the
    messages printed on standard error. *)
Record state : Type := mkState {
  line_count : Z;
  variant_count : Z;
  skipped_ins_count : Z;
  parsed_bnd_count : Z;
  unparsed_bnd_count : Z;
  bed : list string;
  stderr : list event
}.

Definition init : state := mkState 0 0 0 0 0 [] [].

Definition tick_line (st : state) : state :=
  mkState (line_count st + 1) (variant_count st) (skipped_ins_count st)
    (parsed_bnd_count st) (unparsed_bnd_count st) (bed st) (stderr st).

Definition warn (ev : event) (st : state) : state :=
  mkState (line_count st) (variant_count st) (skipped_ins_count st)
    (parsed_bnd_count st) (unparsed_bnd_count st) (bed st) (stderr st ++ [ev]).

Definition skip_ins (st : state) : state :=
  mkState (line_count st) (variant_count st) (skipped_ins_count st + 1)
    (parsed_bnd_count st) (unparsed_bnd_count st) (bed st) (stderr st).

(** [bed.write(row)] followed by [variant_count += 1]. *)
Definition write (row : string) (st : state) : state :=
  mkState (line_count st) (variant_count st + 1) (skipped_ins_count st)
    (parsed_bnd_count st) (unparsed_bnd_count st) (bed st ++ [row]) (stderr st).

Definition count_parsed (st : state) : state :=
  mkState (line_count st) (variant_count st) (skipped_ins_count st)
    (parsed_bnd_count st + 1) (unparsed_bnd_count st) (bed st) (stderr st).

Definition count_unparsed (st : state) : state :=
  mkState (line_count st) (variant_count st) (skipped_ins_count st)
    (parsed_bnd_count st) (unparsed_bnd_count st + 1) (bed st) (stderr st).

(** The text of one output line:
    [f"{chrom}\t{start}\t{end}\t{var_id}\t{ref}\t{alt}\t{qual}\t{filter_field}\t{info}\t{format_field}\n"] *)
Definition bed_row (chrom : string) (bed_start bed_end : Z)
  (var_id ref alt qual filter_field info format_field : string) : string :=
  join (String TAB EmptyString)
    [chrom; str bed_start; str bed_end; var_id; ref; alt; qual;
     filter_field; info; format_field]
  ++ String LF EmptyString.

(** The "Determine end position" statement. *)
Definition end_position (pos : Z) (end_str svlen_str : option string) : result Z :=
  if truthy end_str then
    int_or_raise (match end_str with Some e => e | None => EmptyString end)
  else if truthy svlen_str then
    svlen <- int_or_raise (match svlen_str with Some l => l | None => EmptyString end) ;;
    if svlen <? 0 then Ok (pos + Z.abs svlen) else Ok pos
  else Ok pos.

(** [if bnd_chrom and bnd_pos]: both must be truthy; a position of zero
    is falsy like [None]. *)
Definition mate_truthy (m : option (string * Z)) : bool :=
  match m with
  | Some (String _ _, bnd_pos) => negb (bnd_pos =? 0)
  | _ => false
  end.

(** The mate interval computed inside the [if bnd_chrom and bnd_pos] block. *)
Definition mate_interval (bnd_pos : Z) : Z * Z :=
  if bnd_pos =? 0 then (0, 1) else (bnd_pos - 1, bnd_pos).

(** One iteration of [for line in vcf]. *)
Definition vcf_line (parse_bnd include_ins : bool) (st0 : state) (line : string)
  : result state :=
  let st := tick_line st0 in
  if startswith line "#" then Ok st
  else
    let fields := split_char TAB (strip line) in
    if (Z.of_nat (List.length fields) <? 9) then
      Ok (warn (WarnInsufficientFields (line_count st)) st)
    else
      let chrom := item fields 0 in
      pos <- int_or_raise (item fields 1) ;;
      let var_id := item fields 2 in
      let ref := item fields 3 in
      let alt := item fields 4 in
      let qual := item fields 5 in
      let filter_field := item fields 6 in
      let info := item fields 7 in
      let format_field :=
        if (9 <=? Z.of_nat (List.length fields)) then item fields 8 else EmptyString in
      let svtype := extract_info_field info "SVTYPE" in
      if opt_str_eqb svtype "INS" && negb include_ins then Ok (skip_ins st)
      else
        let end_str := extract_info_field info "END" in
        let svlen_str := extract_info_field info "SVLEN" in
        end_pos <- end_position pos end_str svlen_str ;;
        let bed_start := pos - 1 in
        let bed_end := end_pos in
        let st1 :=
          write (bed_row chrom bed_start bed_end var_id ref alt qual
                   filter_field info format_field) st in
        if opt_str_eqb svtype "BND" && parse_bnd then
          m <- parse_bnd_alt alt ;;
          if mate_truthy m then
            match m with
            | Some (bnd_chrom, bnd_pos) =>
                let '(bnd_start, bnd_end) := mate_interval bnd_pos in
                Ok (count_parsed
                      (write (bed_row bnd_chrom bnd_start bnd_end var_id ref alt
                                qual filter_field info format_field) st1))
            | None => Ok st1
            end
          else Ok (count_unparsed st1)
        else Ok st1.

(** The loop: the state reached, and the exception that ended the loop
    early, if any. *)
Fixpoint vcf_lines (parse_bnd include_ins : bool) (st : state) (lines : list string)
  : state * option exn :=
  match lines with
  | [] => (st, None)
  | line :: rest =>
      match vcf_line parse_bnd include_ins st line with
      | Ok st' => vcf_lines parse_bnd include_ins st' rest
      | Raise e => (tick_line st, Some e)
      end
  end.

(** How a run of [vcf_to_bed] ends. *)
Inductive ending : Type :=
| Returned
| SysExit (code : Z).

(** [vcf_to_bed] on an input file that exists and an output file that can
    be written: [except Exception] reports the error and exits with 1. *)
Definition finish (r : state * option exn) : state * ending :=
  match r with
  | (st, None) => (st, Returned)
  | (st, Some e) => (warn (ErrorMessage e) st, SysExit 1)
  end.

Definition vcf_to_bed (input : string) (parse_bnd include_ins : bool)
  : state * ending :=
  finish (vcf_lines parse_bnd include_ins init (readlines input)).

(** A line of text from tab-separated fields, with its line feed. *)
Definition tsv (fields : list string) : string :=
  join (String TAB EmptyString) fields ++ String LF EmptyString.

End Vcf2bed.

(* ================================================================== *)
(** * src/bed_processor.py *)
(* ================================================================== *)

Module BedProcessor.

Import Py Re.

Definition tab : string := String TAB EmptyString.

(** [extract_svtype(info_field)] *)
Definition extract_svtype (info_field : string) : option string :=
  search_info "SVTYPE" info_field.

(** [process_deletion]; [chrom] is only logged. *)
Definition process_deletion (chrom : string) (start end_ : Z) (fields : list string)
  (flank_size min_coord : Z) : list string :=
  let new_start := Z.max min_coord (start - flank_size) in
  let new_end := end_ + flank_size in
  let modified_fields := set_item (set_item fields 1 (str new_start)) 2 (str new_end) in
  [join tab modified_fields].

(** [process_duplication_inversion]; [chrom] and [svtype] are only logged. *)
Definition process_duplication_inversion (chrom : string) (start end_ : Z)
  (fields : list string) (flank_size min_coord : Z) (svtype : string) : list string :=
  let row1_start := Z.max min_coord (start - flank_size) in
  let row1_end := start + flank_size in
  let row1_fields := set_item (set_item fields 1 (str row1_start)) 2 (str row1_end) in
  let results := [join tab row1_fields] in
  let row2_start := Z.max min_coord (end_ - flank_size) in
  let row2_end := end_ + flank_size in
  let row2_fields := set_item (set_item fields 1 (str row2_start)) 2 (str row2_end) in
  results ++ [join tab row2_fields].

(** The choice of the INFO column inside the [try] block: column 9, then
    column 8, then the first column from the eighth on that contains the
    text [SVTYPE=]. *)
Definition find_info (fields : list string) : option string :=
  if (8 <? Z.of_nat (List.length fields)) && contains "SVTYPE=" (item fields 8)
  then Some (item fields 8)
  else if (7 <? Z.of_nat (List.length fields)) && contains "SVTYPE=" (item fields 7)
  then Some (item fields 7)
  else List.find (contains "SVTYPE=") (skipn 7 fields).

(** [process_bed_line]; the calls to [logging] are left out. *)
Definition process_bed_line (line : string) (flank_size min_coord line_num : Z)
  (skip_invalid : bool) : result (list string) :=
  let line := strip line in
  if String.eqb line EmptyString || startswith line "#" then
    Ok (if String.eqb line EmptyString then [] else [line])
  else
    let fields := split_char TAB line in
    if (Z.of_nat (List.length fields) <? 8) then
      if skip_invalid then Ok []
      else Raise (InvalidBedFormat line_num (Z.of_nat (List.length fields)))
    else
      let chrom := item fields 0 in
      let parsed :=
        start <- int_or_raise (item fields 1) ;;
        end_ <- int_or_raise (item fields 2) ;;
        Ok (start, end_) in
      match parsed with
      | Raise e =>
          if skip_invalid then Ok [] else Raise (CoordinateError line_num e)
      | Ok (start, end_) =>
          let info_field := find_info fields in
          if negb (truthy info_field) then Ok [line]
          else
            let svtype :=
              extract_svtype
                (match info_field with Some i => i | None => EmptyString end) in
            if negb (truthy svtype) then Ok [line]
            else if opt_str_eqb svtype "DEL" then
              Ok (process_deletion chrom start end_ fields flank_size min_coord)
            else if opt_str_eqb svtype "DUP" || opt_str_eqb svtype "INV" then
              Ok (process_duplication_inversion chrom start end_ fields
                    flank_size min_coord
                    (match svtype with Some t => t | None => EmptyString end))
            else Ok [line]
      end.

(** The counters of [process_bed_file] and the text written to the
    output file, one element per [outfile.write]. *)
Record file_state : Type := mkFile {
  lines_read : Z;
  lines_written : Z;
  lines_skipped : Z;
  outfile : list string
}.

(** [for processed_line in processed_lines: if processed_line: ...] *)
Definition write_row (st : file_state) (processed_line : string) : file_state :=
  if String.eqb processed_line EmptyString then st
  else mkFile (lines_read st) (lines_written st + 1) (lines_skipped st)
         (outfile st ++ [processed_line ++ String LF EmptyString]).

Definition write_rows (processed_lines : list string) (st : file_state)
  : file_state :=
  fold_left write_row processed_lines st.

(** The loop of [process_bed_file] from line number [line_num] on: the
    state reached and the exception raised again by the handlers, if any. *)
Fixpoint process_bed_lines (flank_size min_coord : Z) (skip_invalid : bool)
  (line_num : Z) (st : file_state) (lines : list string)
  : file_state * option exn :=
  match lines with
  | [] => (st, None)
  | line :: rest =>
      let st1 := mkFile (lines_read st + 1) (lines_written st) (lines_skipped st)
                   (outfile st) in
      match process_bed_line line flank_size min_coord line_num skip_invalid with
      | Raise e => (st1, Some e)
      | Ok processed_lines =>
          let st2 := write_rows processed_lines st1 in
          let st3 :=
            match processed_lines with
            | [] => mkFile (lines_read st2) (lines_written st2)
                      (lines_skipped st2 + 1) (outfile st2)
            | _ => st2
            end in
          process_bed_lines flank_size min_coord skip_invalid (line_num + 1) st3 rest
      end
  end.

(** [process_bed_file] on an input file that exists and an output file
    that can be written. *)
Definition process_bed_file (input : string) (flank_size min_coord : Z)
  (skip_invalid : bool) : file_state * option exn :=
  process_bed_lines flank_size min_coord skip_invalid 1 (mkFile 0 0 0 [])
    (readlines input).

(** The value [main] returns after [process_bed_file]: 0 when it
    returned, 2 when it raised a ValueError. *)
Definition main_status (r : file_state * option exn) : Z :=
  match snd r with
  | None => 0
  | Some _ => 2
  end.

End BedProcessor.

(* ================================================================== *)
(** * src/squash_intersect.py *)
(* ================================================================== *)

Module SquashIntersect.

Import Py.

(** [process_bed_line(line, delimiter, line_num)]: [Ok None] is the pair
    [(None, None)]; logging is left out. *)
Definition process_bed_line (line delimiter : string) (line_num : Z)
  : result (option (string * list string)) :=
  let line := strip line in
  if String.eqb line EmptyString || startswith line "#" then Ok None
  else
    match split line delimiter with
    | None => Raise EmptySeparator
    | Some columns =>
        if (Z.of_nat (List.length columns) <? 19) then Ok None
        else
          let sniffles_id := item columns 3 in
          let elements := firstn 9 (skipn 10 columns) in
          Ok (Some (sniffles_id, elements))
    end.

(** A [defaultdict(list)] keyed by strings, in insertion order. *)
Definition variants_dict : Type := list (string * list (list string)).

Fixpoint lookup (key : string) (d : variants_dict) : option (list (list string)) :=
  match d with
  | [] => None
  | (k, v) :: rest => if String.eqb k key then Some v else lookup key rest
  end.

(** [variants[key].append(elements)] *)
Fixpoint append_to (key : string) (elements : list string) (d : variants_dict)
  : variants_dict :=
  match d with
  | [] => [(key, [elements])]
  | (k, v) :: rest =>
      if String.eqb k key then (k, (v ++ [elements])%list) :: rest
      else (k, v) :: append_to key elements rest
  end.

(** The loop of [squash_variants] from line number [line_num] on. *)
Fixpoint squash_lines (delimiter : string) (skip_header : bool) (line_num : Z)
  (variants : variants_dict) (lines : list string) : result variants_dict :=
  match lines with
  | [] => Ok variants
  | line :: rest =>
      if (line_num =? 1) && skip_header then
        squash_lines delimiter skip_header (line_num + 1) variants rest
      else
        r <- process_bed_line line delimiter line_num ;;
        match r with
        | None => squash_lines delimiter skip_header (line_num + 1) variants rest
        | Some (sniffles_id, elements) =>
            squash_lines delimiter skip_header (line_num + 1)
              (append_to sniffles_id elements variants) rest
        end
  end.

(** [squash_variants(input_file, delimiter, skip_header)] on the lines of
    the input file; an exception is logged and raised again. *)
Definition squash_variants (lines : list string) (delimiter : string)
  (skip_header : bool) : result variants_dict :=
  squash_lines delimiter skip_header 1 [] lines.

(** The second column of an output line: [combined_elements]. *)
Definition combined_elements (element_lists : list (list string)) : string :=
  let formatted_rows := map (join ",") element_lists in
  join "|" formatted_rows.

(** [format_output_line(sniffles_id, element_lists)] *)
Definition format_output_line (sniffles_id : string)
  (element_lists : list (list string)) : string :=
  sniffles_id ++ String TAB EmptyString ++ combined_elements element_lists.

(** [sorted(keys)]: insertion into a list ordered by code points. *)
Fixpoint insert_sorted (k : string) (l : list string) : list string :=
  match l with
  | [] => [k]
  | x :: rest => if String.leb k x then k :: l else x :: insert_sorted k rest
  end.

Definition sorted (l : list string) : list string :=
  fold_right insert_sorted [] l.

(** [write_output(variants, output_file, no_header)]: the lines written. *)
Definition write_output (variants : variants_dict) (no_header : bool) : list string :=
  (if no_header then []
   else ["SnifflesID" ++ String TAB EmptyString ++ "Elements" ++ String LF EmptyString])
  ++ map (fun sniffles_id =>
            format_output_line sniffles_id
              (match lookup sniffles_id variants with Some v => v | None => [] end)
            ++ String LF EmptyString)
         (sorted (map fst variants)).

(** Reading an Elements column back: split on the row delimiter, then
    each piece on the field delimiter. *)
Definition split_elements (combined : string) : list (list string) :=
  map (split_char ",") (split_char "|" combined).

End SquashIntersect.

(* ================================================================== *)
(** * Reading a BED row *)
(* ================================================================== *)

Module Bed.

Import Py.

(** The interval a BED row carries: its second and third columns read as
    integers. *)
Definition row_interval (row : string) : option (Z * Z) :=
  let fields := split_char TAB row in
  match Py.int (item fields 1), Py.int (item fields 2) with
  | Some s, Some e => Some (s, e)
  | _, _ => None
  end.

(** The first column of a BED row. *)
Definition row_chrom (row : string) : string := item (split_char TAB row) 0.

End Bed.

(* ================================================================== *)
(** * Notions used in the statements *)
(* ================================================================== *)

Module Vcf2bedSpec.

Import Py Re Vcf2bed Bed.





(** The fields the loop reads from a line. *)
Definition fields_of (line : string) : list string := split_char TAB (strip line).

(** The primary row of a line with position [pos] and end [end_pos]. *)
Definition primary_row (line : string) (pos end_pos : Z) : string :=
  let f := fields_of line in
  bed_row (item f 0) (pos - 1) end_pos (item f 2) (item f 3) (item f 4)
    (item f 5) (item f 6) (item f 7) (item f 8).

(** A deletion that gives its length and no END. *)
Definition deletion_by_svlen : string :=
  tsv ["chr1"; "1000"; "varA"; "A"; "<DEL>"; "."; "."; "SVTYPE=DEL;SVLEN=-500"; "GT"].


(** The state after one iteration that raised nothing. *)
Definition after_line (parse_bnd include_ins : bool) (st : state) (line : string)
  : state :=
  match vcf_line parse_bnd include_ins st line with
  | Ok st' => st'
  | Raise _ => st
  end.

(** The keys of an INFO column: the text of each entry before its [=]. *)
Definition key_of (entry : string) : string :=
  fst (span (fun c => negb (Ascii.eqb c "=")) entry).

(** The keys of all entries of an INFO column. *)
Definition info_keys (info : string) : list string :=
  map key_of (split_char semi info).

Definition colon : ascii := ":"%char.

(** The text [lead b1 chrom : digits b2 trail]. *)
Definition mate_notation (lead : string) (b1 : ascii) (chrom digits : string)
  (b2 : ascii) (trail : string) : string :=
  lead ++ String b1 (chrom ++ String colon (digits ++ String b2 trail)).

(** The three grammars in one: a run of bases on at most one side of a
    bracketed [chrom:pos], the chromosome non-empty and without a colon,
    the position a non-empty run of digits. *)
Definition well_formed (lead : string) (b1 : ascii) (chrom digits : string)
  (b2 : ascii) (trail : string) : Prop :=
  forallb isbase lead = true /\ forallb isbase trail = true /\
  (lead = EmptyString \/ trail = EmptyString) /\
  isbracket b1 = true /\ isbracket b2 = true /\
  chrom <> EmptyString /\ lacks colon chrom = true /\
  digits <> EmptyString /\ forallb isdigit digits = true.

(** [alt] is a mate-breakpoint notation that embeds [chrom] and the
    position [pos]. *)
Definition bnd_grammar (alt chrom : string) (pos : Z) : Prop :=
  exists lead b1 digits b2 trail,
    well_formed lead b1 chrom digits b2 trail /\
    alt = mate_notation lead b1 chrom digits b2 trail /\
    Py.int digits = Some pos.

(** A line as the file iterator yields it: no line feed, except possibly
    one at the very end. *)
Definition line_shape (l : string) : Prop :=
  exists body, lacks LF body = true /\ (l = body \/ l = body ++ String LF EmptyString).

(** A line the loop converts: not a header, at least nine columns, a
    position and an end that are integers. *)
Definition data_line (line : string) (pos end_pos : Z) : Prop :=
  startswith line "#" = false /\
  9 <= Z.of_nat (List.length (fields_of line)) /\
  Py.int (item (fields_of line) 1) = Some pos /\
  end_position pos (extract_info_field (item (fields_of line) 7) "END")
    (extract_info_field (item (fields_of line) 7) "SVLEN") = Ok end_pos.

(** The SVTYPE the loop extracts from a line, and its ALT column. *)
Definition svtype_of (line : string) : option string :=
  extract_info_field (item (fields_of line) 7) "SVTYPE".

Definition alt_of (line : string) : string := item (fields_of line) 4.

(** The mate row of a line for a mate on [bnd_chrom] at [(bnd_start, bnd_end)]. *)
Definition mate_row (line bnd_chrom : string) (bnd_start bnd_end : Z) : string :=
  let f := fields_of line in
  bed_row bnd_chrom bnd_start bnd_end (item f 2) (item f 3) (item f 4)
    (item f 5) (item f 6) (item f 7) (item f 8).



Definition symbolic_bnd : string :=
  tsv ["chr1"; "100"; "bnd0"; "N"; "<BND>"; "."; "."; "SVTYPE=BND"; "GT"].

Definition telomeric_bnd : string :=
  tsv ["chr1"; "100"; "bnd1"; "N"; "N]chr2:0]"; "."; "."; "SVTYPE=BND"; "GT"].

Definition bad_pos_line : string :=
  tsv ["chr1"; "abc"; "v1"; "A"; "<DEL>"; "."; "."; "SVTYPE=DEL;END=2000"; "GT"].

Definition good_line : string :=
  tsv ["chr1"; "1000"; "v2"; "A"; "<DEL>"; "."; "."; "SVTYPE=DEL;END=2000"; "GT"].

Definition eight_field_line : string :=
  tsv ["chr1"; "1000"; "v3"; "A"; "<DEL>"; "."; "."; "SVTYPE=DEL;END=2000"].

End Vcf2bedSpec.

Module BedProcessorSpec.

Import Py Re BedProcessor Bed.

(** A BED line that [process_bed_line] classifies: [fields] are its
    columns, [start] and [end_] its interval and [svtype] the value found
    after [SVTYPE=] in the INFO column chosen by [find_info]. *)
Definition sv_line (line : string) (fields : list string) (start end_ : Z)
  (svtype : string) : Prop :=
  strip line <> EmptyString /\
  startswith (strip line) "#" = false /\
  fields = split_char TAB (strip line) /\
  8 <= Z.of_nat (List.length fields) /\
  Py.int (item fields 1) = Some start /\
  Py.int (item fields 2) = Some end_ /\
  exists info, find_info fields = Some info /\ extract_svtype info = Some svtype.

(** The row built from [fields] with the interval replaced. *)
Definition flank_row (fields : list string) (s e : Z) : string :=
  join tab (set_item (set_item fields 1 (str s)) 2 (str e)).

(** The record of the specification's scenario, as a VCF line. *)
Definition scenario_vcf_line : string :=
  Vcf2bed.tsv ["chr1"; "1000"; "varA"; "A"; "<DEL>"; "."; "."; "SVTYPE=DEL;END=2000"; "GT"].


(** The row the converter writes for the scenario, and an inversion. *)
Definition scenario_bed_line : string :=
  Vcf2bed.tsv ["chr1"; "999"; "2000"; "varA"; "A"; "<DEL>"; "."; "."; "SVTYPE=DEL;END=2000"; "GT"].



(** The types for which the expander rewrites the interval. *)
Definition flanked_type (svtype : string) : Prop :=
  svtype = "DEL" \/ svtype = "DUP" \/ svtype = "INV".

End BedProcessorSpec.

Module SquashIntersectSpec.

Import Py SquashIntersect.

Definition comma : ascii := ","%char.
Definition pipe : ascii := "|"%char.

(** The element tuples of the rows of [lines] that carry [key], in the
    order of the rows; [line_num] is the number of the first line. *)
Fixpoint contributions (key delimiter : string) (skip_header : bool)
  (line_num : Z) (lines : list string) : list (list string) :=
  match lines with
  | [] => []
  | line :: rest =>
      let later := contributions key delimiter skip_header (line_num + 1) rest in
      if (line_num =? 1) && skip_header then later
      else
        match process_bed_line line delimiter line_num with
        | Ok (Some (sniffles_id, elements)) =>
            if String.eqb sniffles_id key then elements :: later else later
        | _ => later
        end
  end.

(** No field of the tuples contains the field or the row delimiter. *)
Definition delimiter_free (element_lists : list (list string)) : Prop :=
  Forall (Forall (fun f => lacks comma f = true /\ lacks pipe f = true))
    element_lists.

(** What a key maps to once [cs] has been appended to what it mapped to. *)
Definition extended (old : option (list (list string))) (cs : list (list string))
  : option (list (list string)) :=
  match old, cs with
  | Some v, _ => Some (v ++ cs)%list
  | None, [] => None
  | None, _ => Some cs
  end.

(** An intersection row of nineteen columns with the given id and
    eleventh column. *)
Definition row_with (id first : string) : string :=
  Vcf2bed.tsv ["chr1"; "10"; "20"; id; "N"; "<DEL>"; "."; "."; "SVTYPE=DEL"; "GT";
               first; "11"; "19"; "AluY"; "SINE/Alu"; "+"; "1"; "300"; "7"].

End SquashIntersectSpec.

(* ================================================================== *)
(** * Notions used in the statements about whole runs *)
(* ================================================================== *)

Module RunSpec.

Import Py Re Vcf2bed BedProcessor SquashIntersect Bed Vcf2bedSpec BedProcessorSpec.

(** What one iteration of the converter's loop can do to the state. *)
Inductive line_effect (parse_bnd : bool) (line : string) (st : state)
  : state -> Prop :=
| effect_header :
    startswith line "#" = true ->
    line_effect parse_bnd line st (tick_line st)
| effect_short :
    line_effect parse_bnd line st
      (warn (WarnInsufficientFields (line_count st + 1)) (tick_line st))
| effect_skipped_ins :
    line_effect parse_bnd line st (skip_ins (tick_line st))
| effect_primary (pos end_pos : Z) :
    line_effect parse_bnd line st
      (write (primary_row line pos end_pos) (tick_line st))
| effect_unparsed (pos end_pos : Z) :
    parse_bnd = true ->
    line_effect parse_bnd line st
      (count_unparsed (write (primary_row line pos end_pos) (tick_line st)))
| effect_parsed (pos end_pos : Z) (bnd_chrom : string) (bnd_pos : Z) :
    parse_bnd = true ->
    parse_bnd_alt (alt_of line) = Ok (Some (bnd_chrom, bnd_pos)) ->
    bnd_pos <> 0 ->
    line_effect parse_bnd line st
      (count_parsed
         (write (mate_row line bnd_chrom (bnd_pos - 1) bnd_pos)
            (write (primary_row line pos end_pos) (tick_line st)))).

(** The summary counters agree with the output and with each other. *)
Definition consistent (st : state) : Prop :=
  variant_count st = Z.of_nat (List.length (bed st)) /\
  0 <= parsed_bnd_count st /\ 0 <= unparsed_bnd_count st /\
  0 <= skipped_ins_count st /\
  2 * parsed_bnd_count st + unparsed_bnd_count st <= variant_count st /\
  variant_count st - parsed_bnd_count st + skipped_ins_count st <= line_count st.

(** An output row: ten tab-separated columns, the second and third an
    interval, a line feed at the end. *)
Definition bed_record (row : string) : Prop :=
  List.length (split_char TAB row) = 10%nat /\
  (exists s e, row_interval row = Some (s, e)) /\
  exists body, row = body ++ String LF EmptyString.

(** The last character of [s] exists and is not white space. *)
Fixpoint ends_nonspace (s : string) : bool :=
  match s with
  | EmptyString => false
  | String c EmptyString => negb (isspace c)
  | String _ tl => ends_nonspace tl
  end.

(** The columns of the primary row of a line. *)
Definition primary_fields (line : string) (pos end_pos : Z) : list string :=
  let f := fields_of line in
  [item f 0; str (pos - 1); str end_pos; item f 2; item f 3; item f 4;
   item f 5; item f 6; item f 7; item f 8].

(** Rows used as concrete inputs. *)
Definition short_row : string := join tab ["chr1"; "x"; "20"].

(** A deletion row whose start is padded with the separator [0x1c], which
    [str.strip] removes and [int()] does not accept. *)
Definition separator_padded_row : string :=
  join tab ["chr1"; String "028" "999"; "2000"; "v"; "A"; "<DEL>"; "."; ".";
            "SVTYPE=DEL"; "GT"].

Definition padded_bnd_row : string :=
  "  " ++ Vcf2bed.tsv ["chr1"; "5"; "6"; "b1"; "N"; "N]chr2:5000]"; "."; ".";
                       "SVTYPE=BND"; "GT"].

(** A line the flank expander cannot read: not empty, not a comment, and
    with fewer than eight columns or a start or end that is no integer. *)
Definition invalid_line (line : string) : Prop :=
  strip line <> EmptyString /\
  startswith (strip line) "#" = false /\
  (Z.of_nat (List.length (split_char TAB (strip line))) < 8 \/
   Py.int (item (split_char TAB (strip line)) 1) = None \/
   Py.int (item (split_char TAB (strip line)) 2) = None).

(** The counters of the expander agree with its output. *)
Definition file_consistent (st : file_state) : Prop :=
  lines_written st = Z.of_nat (List.length (outfile st)) /\
  0 <= lines_skipped st /\
  lines_skipped st <= lines_read st /\
  lines_written st <= 2 * (lines_read st - lines_skipped st).

(** The rows the aggregator accepts, with their keys, in input order. *)
Fixpoint accepted (delimiter : string) (skip_header : bool) (line_num : Z)
  (lines : list string) : list (string * list string) :=
  match lines with
  | [] => []
  | line :: rest =>
      let later := accepted delimiter skip_header (line_num + 1) rest in
      if (line_num =? 1) && skip_header then later
      else
        match SquashIntersect.process_bed_line line delimiter line_num with
        | Ok (Some kv) => kv :: later
        | _ => later
        end
  end.

(** The number of tuples an aggregate holds. *)
Definition total_tuples (d : variants_dict) : nat :=
  list_sum (map (fun kv => List.length (snd kv)) d).

(** Keys in ascending order of their code points. *)
Fixpoint ascending (l : list string) : Prop :=
  match l with
  | [] => True
  | x :: rest =>
      match rest with
      | [] => True
      | y :: _ => String.leb x y = true /\ ascending rest
      end
  end.

End RunSpec.

(* ================================================================== *)
(** * Sanity checks of the embedding *)
(* ================================================================== *)

Example py_int_ex1 : Py.int " 1_000 " = Some 1000. Proof. reflexivity. Qed.
Example py_int_ex2 : Py.int "-12" = Some (-12). Proof. reflexivity. Qed.
Example py_int_ex3 : Py.int "1__0" = None. Proof. reflexivity. Qed.
Example py_int_ex4 : Py.int "" = None. Proof. reflexivity. Qed.
Example py_int_ex5 : Py.int "varA" = None. Proof. reflexivity. Qed.
Example py_int_ex6 : Py.int (String "028" "5") = None. Proof. reflexivity. Qed.
Example py_int_ex7 : Py.int (String "160" "5 ") = Some 5. Proof. reflexivity. Qed.
Example py_strip_ex : Py.strip (String "028" "5 ") = "5". Proof. reflexivity. Qed.
Example py_str_ex1 : Py.str 0 = "0". Proof. reflexivity. Qed.
Example py_str_ex2 : Py.str (-45) = "-45". Proof. reflexivity. Qed.
Example py_split_ex : Py.split_char "," "a,,b," = ["a"; ""; "b"; ""]. Proof. reflexivity. Qed.
Example extract_ex1 :
  Vcf2bed.extract_info_field "SVTYPE=DEL;END=2000" "END" = Some "2000".
Proof. reflexivity. Qed.
Example extract_ex2 :
  Vcf2bed.extract_info_field "SVTYPE=DEL;END=;SVLEN=-5" "END" = None.
Proof. reflexivity. Qed.
Example parse_bnd_ex1 :
  Vcf2bed.parse_bnd_alt "N]chr2:5000]" = Ok (Some ("chr2", 5000)).
Proof. reflexivity. Qed.
Example parse_bnd_ex2 :
  Vcf2bed.parse_bnd_alt "[chr2:5000[ACG" = Ok (Some ("chr2", 5000)).
Proof. reflexivity. Qed.
Example parse_bnd_ex3 :
  Vcf2bed.parse_bnd_alt "A[chr2:5000[A" = Ok None.
Proof. reflexivity. Qed.
Example parse_bnd_ex4 :
  Vcf2bed.parse_bnd_alt "<BND>" = Ok None.
Proof. reflexivity. Qed.
Example vcf_line_ex1 :
  Vcf2bed.bed (fst (Vcf2bed.vcf_to_bed
    (Vcf2bed.tsv ["chr1"; "1000"; "varA"; "A"; "<DEL>"; "."; "."; "SVTYPE=DEL;END=2000"; "GT"])
    true false))
  = [Vcf2bed.tsv ["chr1"; "999"; "2000"; "varA"; "A"; "<DEL>"; "."; "."; "SVTYPE=DEL;END=2000"; "GT"]].
Proof. reflexivity. Qed.
Example bed_del_ex :
  BedProcessor.process_bed_line
    (Vcf2bed.tsv ["chr1"; "999"; "2000"; "varA"; "A"; "<DEL>"; "."; "."; "SVTYPE=DEL;END=2000"; "GT"])
    1000 0 1 false
  = Ok [Py.join BedProcessor.tab
          ["chr1"; "0"; "3000"; "varA"; "A"; "<DEL>"; "."; "."; "SVTYPE=DEL;END=2000"; "GT"]].
Proof. reflexivity. Qed.
Example bed_dup_ex :
  BedProcessor.process_bed_line
    (Vcf2bed.tsv ["chr1"; "4999"; "9000"; "v"; "A"; "<DUP>"; "."; "."; "SVTYPE=DUP"; "GT"])
    1000 0 1 false
  = Ok [Py.join BedProcessor.tab ["chr1"; "3999"; "5999"; "v"; "A"; "<DUP>"; "."; "."; "SVTYPE=DUP"; "GT"];
        Py.join BedProcessor.tab ["chr1"; "8000"; "10000"; "v"; "A"; "<DUP>"; "."; "."; "SVTYPE=DUP"; "GT"]].
Proof. reflexivity. Qed.
Example bed_separator_ex :
  BedProcessor.process_bed_line RunSpec.separator_padded_row 1000 0 1 false
  = Raise (CoordinateError 1 (InvalidLiteral (String "028" "999"))).
Proof. reflexivity. Qed.
Example split_ex1 : Py.split "xabyabz" "ab" = Some ["x"; "y"; "z"].
Proof. reflexivity. Qed.
Example squash_ex :
  let row id a := Vcf2bed.tsv ["c"; "1"; "2"; id; "."; "."; "."; "."; "."; ".";
                               a; "b"; "c"; "d"; "e"; "f"; "g"; "h"; "i"] in
  match SquashIntersect.squash_variants [row "v1" "a"; row "v2" "g"; row "v1" "d"]
          (String Py.TAB EmptyString) false with
  | Ok v => SquashIntersect.write_output v true
  | Raise _ => []
  end
  = [Vcf2bed.tsv ["v1"; "a,b,c,d,e,f,g,h,i|d,b,c,d,e,f,g,h,i"];
     Vcf2bed.tsv ["v2"; "g,b,c,d,e,f,g,h,i"]].
Proof. reflexivity. Qed.

(* ================================================================== *)
(** * Facts about the string and integer helpers *)
(* ================================================================== *)

Module PyFacts.

Import Py.

Lemma append_nil_r (s : string) : s ++ EmptyString = s.
Proof. induction s as [|c s IH]; simpl; [reflexivity | now rewrite IH]. Qed.

Lemma append_assoc (a b c : string) : (a ++ b) ++ c = a ++ (b ++ c).
Proof. induction a as [|x a IH]; simpl; [reflexivity | now rewrite IH]. Qed.

Lemma forallb_app (p : ascii -> bool) (a b : string) :
  forallb p (a ++ b) = forallb p a && forallb p b.
Proof.
  induction a as [|x a IH]; simpl; [reflexivity|].
  rewrite IH. now rewrite andb_assoc.
Qed.

(** ** [span] *)

Lemma span_app (p : ascii -> bool) (a : string) (c : ascii) (r : string) :
  forallb p a = true -> p c = false ->
  span p (a ++ String c r) = (a, String c r).
Proof.
  induction a as [|x a IH]; simpl; intros Ha Hc.
  - now rewrite Hc.
  - apply andb_true_iff in Ha as [Hx Ha].
    rewrite Hx, (IH Ha Hc). reflexivity.
Qed.

Lemma span_all (p : ascii -> bool) (a : string) :
  forallb p a = true -> span p a = (a, EmptyString).
Proof.
  induction a as [|x a IH]; simpl; intros Ha; [reflexivity|].
  apply andb_true_iff in Ha as [Hx Ha].
  rewrite Hx, (IH Ha). reflexivity.
Qed.

Lemma span_spec (p : ascii -> bool) (s a b : string) :
  span p s = (a, b) ->
  s = a ++ b /\ forallb p a = true /\
  match b with EmptyString => True | String c _ => p c = false end.
Proof.
  revert a b. induction s as [|x s IH]; simpl; intros a b H.
  - inversion H; subst. auto.
  - destruct (p x) eqn:Hx.
    + destruct (span p s) as [a' b'] eqn:Hs. inversion H; subst.
      destruct (IH a' b eq_refl) as (E & Fa & Fb).
      simpl. rewrite Hx, Fa. repeat split; auto. now rewrite E at 1.
    + inversion H; subst. simpl. rewrite Hx. auto.
Qed.

(** ** [split_char] and [join] *)

Lemma split_char_cons (sep : ascii) (s : string) :
  exists h t, split_char sep s = h :: t.
Proof.
  induction s as [|x s (h & t & E)]; simpl.
  - eauto.
  - destruct (Ascii.eqb x sep); [eauto|]. rewrite E. eauto.
Qed.

Lemma split_char_lacks_sep (sep : ascii) (s : string) :
  split_char sep s = [s] <-> lacks sep s = true.
Proof.
  unfold lacks. induction s as [|x s IH]; simpl.
  - tauto.
  - destruct (Ascii.eqb x sep) eqn:E; simpl.
    + split; intros H; [inversion H | discriminate H].
    + destruct (split_char_cons sep s) as (h & t & Hs). rewrite Hs in *.
      split; intros H.
      * inversion H; subst. now apply IH.
      * apply IH in H. now inversion H.
Qed.

Lemma split_char_app (sep : ascii) (a r : string) :
  lacks sep a = true ->
  split_char sep (a ++ String sep r) = a :: split_char sep r.
Proof.
  unfold lacks. induction a as [|x a IH]; simpl; intros Ha.
  - now rewrite Ascii.eqb_refl.
  - apply andb_true_iff in Ha as [Hx Ha].
    apply negb_true_iff in Hx. rewrite Hx, (IH Ha). reflexivity.
Qed.

Lemma split_char_fields (sep : ascii) (s : string) :
  Forall (fun f => lacks sep f = true) (split_char sep s).
Proof.
  unfold lacks. induction s as [|x s IH]; simpl.
  - repeat constructor.
  - destruct (Ascii.eqb x sep) eqn:E.
    + constructor; [reflexivity | exact IH].
    + destruct (split_char sep s) as [|h t].
      * repeat constructor. simpl. now rewrite E.
      * inversion IH; subst. constructor; [|assumption].
        simpl. rewrite E. simpl. assumption.
Qed.

Lemma split_char_join (sep : ascii) (l : list string) :
  l <> [] -> Forall (fun f => lacks sep f = true) l ->
  split_char sep (join (String sep EmptyString) l) = l.
Proof.
  induction l as [|x l IH]; intros Hne Hl; [congruence|].
  inversion Hl as [|? ? Hx Hl']; subst.
  destruct l as [|y l].
  - simpl. now apply split_char_lacks_sep.
  - change (join (String sep EmptyString) (x :: y :: l))
      with (x ++ String sep (join (String sep EmptyString) (y :: l))).
    rewrite (split_char_app _ _ _ Hx). f_equal.
    apply IH; [discriminate | assumption].
Qed.

Lemma join_split_char (sep : ascii) (s : string) :
  join (String sep EmptyString) (split_char sep s) = s.
Proof.
  induction s as [|x s IH]; simpl; [reflexivity|].
  destruct (split_char_cons sep s) as (h & t & E). rewrite E in *.
  destruct (Ascii.eqb_spec x sep) as [->|N].
  - change (join (String sep EmptyString) (EmptyString :: h :: t))
      with (String sep (join (String sep EmptyString) (h :: t))).
    now rewrite IH.
  - destruct t as [|h' t]; simpl in *; now rewrite <- IH.
Qed.

Lemma set_item_length (l : list string) (i : nat) (v : string) :
  List.length (set_item l i v) = List.length l.
Proof.
  revert i; induction l as [|x l IH]; intros [|i]; simpl; auto.
Qed.

Lemma set_item_Forall (P : string -> Prop) (l : list string) (i : nat) (v : string) :
  Forall P l -> P v -> Forall P (set_item l i v).
Proof.
  revert i; induction l as [|x l IH]; intros [|i] Hl Hv; simpl; auto;
    inversion Hl; subst; constructor; auto.
Qed.

Lemma item_set_item_same (l : list string) (i : nat) (v : string) :
  (i < List.length l)%nat -> item (set_item l i v) i = v.
Proof.
  unfold item. revert i; induction l as [|x l IH]; intros [|i] H; simpl in *;
    try lia; auto. apply IH. lia.
Qed.

Lemma item_set_item_other (l : list string) (i j : nat) (v : string) :
  i <> j -> item (set_item l i v) j = item l j.
Proof.
  unfold item. revert i j; induction l as [|x l IH]; intros [|i] [|j] H; simpl;
    try congruence; auto.
Qed.

(** ** [strip] *)

Lemma rstrip_nonspace (s : string) :
  forallb nonspace s = true -> rstrip s = s.
Proof.
  unfold nonspace. induction s as [|x s IH]; simpl; intros H; [reflexivity|].
  apply andb_true_iff in H as [Hx Hs]. rewrite (IH Hs).
  apply negb_true_iff in Hx. rewrite Hx. now destruct s.
Qed.

Lemma lstrip_nonspace (s : string) :
  forallb nonspace s = true -> lstrip s = s.
Proof.
  unfold nonspace. destruct s as [|x s]; simpl; intros H; [reflexivity|].
  apply andb_true_iff in H as [Hx _].
  apply negb_true_iff in Hx. now rewrite Hx.
Qed.

Lemma strip_nonspace (s : string) :
  forallb nonspace s = true -> strip s = s.
Proof.
  intros H. unfold strip. rewrite (rstrip_nonspace _ H). now apply lstrip_nonspace.
Qed.

Lemma int_space_isspace (c : ascii) : int_space c = true -> isspace c = true.
Proof.
  destruct c as [[] [] [] [] [] [] [] []]; vm_compute; congruence.
Qed.

Lemma nonspace_int_space (c : ascii) : nonspace c = true -> int_space c = false.
Proof.
  unfold nonspace. intros H. apply negb_true_iff in H.
  destruct (int_space c) eqn:E; [|reflexivity].
  apply int_space_isspace in E. congruence.
Qed.

Lemma int_strip_nonspace (s : string) :
  forallb nonspace s = true -> int_strip s = s.
Proof.
  intros H. unfold int_strip.
  assert (R : int_rstrip s = s).
  { induction s as [|x s IH]; [reflexivity|]. cbn [forallb] in H.
    apply andb_true_iff in H as [Hx Hs]. cbn [int_rstrip]. rewrite (IH Hs).
    rewrite (nonspace_int_space _ Hx). now destruct s. }
  rewrite R. destruct s as [|x s]; [reflexivity|]. cbn [forallb] in H.
  apply andb_true_iff in H as [Hx _]. cbn [int_lstrip].
  now rewrite (nonspace_int_space _ Hx).
Qed.

Lemma forallb_impl (p q : ascii -> bool) (s : string) :
  (forall c, p c = true -> q c = true) ->
  forallb p s = true -> forallb q s = true.
Proof.
  intros Hpq. induction s as [|x s IH]; simpl; intros H; [reflexivity|].
  apply andb_true_iff in H as [Hx Hs]. now rewrite (Hpq _ Hx), (IH Hs).
Qed.

Lemma isdigit_nonspace (c : ascii) : isdigit c = true -> nonspace c = true.
Proof.
  destruct c as [[] [] [] [] [] [] [] []]; vm_compute; congruence.
Qed.

Lemma isdigit_not_tab (c : ascii) :
  isdigit c = true -> negb (Ascii.eqb c TAB) = true.
Proof.
  destruct c as [[] [] [] [] [] [] [] []]; vm_compute; congruence.
Qed.

Lemma isdigit_not_sign (c : ascii) :
  isdigit c = true -> c <> "-"%char /\ c <> "+"%char /\ c <> "_"%char.
Proof.
  destruct c as [[] [] [] [] [] [] [] []]; vm_compute; intros H;
    try discriminate H; repeat split; discriminate.
Qed.

(** ** [int] and [str] *)

Lemma string_of_uint_digits (u : uint) :
  forallb isdigit (NilEmpty.string_of_uint u) = true.
Proof. induction u; simpl; auto. Qed.

Lemma string_of_uint_nonempty (u : uint) :
  u <> Nil -> NilEmpty.string_of_uint u <> EmptyString.
Proof. destruct u; simpl; congruence. Qed.

Lemma int_digits_digits (prev : bool) (ds : string) :
  forallb isdigit ds = true -> (ds <> EmptyString \/ prev = true) ->
  int_digits prev ds = Some ds.
Proof.
  revert prev. induction ds as [|x ds IH]; simpl; intros prev H Hne.
  - destruct Hne as [Hne | ->]; [congruence | reflexivity].
  - apply andb_true_iff in H as [Hx Hs]. rewrite Hx.
    rewrite (IH true Hs); [reflexivity | now right].
Qed.

Lemma digits_value_of_uint (u : uint) :
  u <> Nil -> digits_value (NilEmpty.string_of_uint u) = Some (Z.of_uint u).
Proof.
  intros Hu. unfold digits_value. rewrite NilEmpty.usu. now destruct u.
Qed.

(** [int] reads a run of digits as the number it denotes. *)
Lemma int_of_uint (u : uint) :
  u <> Nil -> Py.int (NilEmpty.string_of_uint u) = Some (Z.of_uint u).
Proof.
  intros Hu. unfold Py.int.
  pose proof (string_of_uint_digits u) as Hd.
  pose proof (string_of_uint_nonempty u Hu) as Hne.
  rewrite (int_strip_nonspace _ (forallb_impl _ _ _ isdigit_nonspace Hd)).
  destruct (NilEmpty.string_of_uint u) as [|c r] eqn:E; [congruence|].
  assert (Hc : isdigit c = true) by (simpl in Hd; now apply andb_true_iff in Hd).
  destruct (isdigit_not_sign c Hc) as (N1 & N2 & _).
  assert (Hsign :
    match String c r with
    | String "-" r0 => (true, r0)
    | String "+" r0 => (false, r0)
    | _ => (false, String c r)
    end = (false, String c r)).
  { destruct c as [[] [] [] [] [] [] [] []]; try reflexivity; congruence. }
  rewrite Hsign. rewrite (int_digits_digits false _ Hd) by (left; discriminate).
  rewrite <- E, (digits_value_of_uint u Hu). reflexivity.
Qed.

Lemma int_of_neg_uint (u : uint) :
  u <> Nil ->
  Py.int (String "-" (NilEmpty.string_of_uint u)) = Some (- Z.of_uint u).
Proof.
  intros Hu. unfold Py.int.
  pose proof (string_of_uint_digits u) as Hd.
  pose proof (string_of_uint_nonempty u Hu) as Hne.
  rewrite int_strip_nonspace.
  - rewrite (int_digits_digits false _ Hd) by (now left).
    rewrite (digits_value_of_uint u Hu). reflexivity.
  - simpl. now apply (forallb_impl _ _ _ isdigit_nonspace).
Qed.

Lemma nilzero_nonnil (u : uint) :
  u <> Nil -> NilZero.string_of_uint u = NilEmpty.string_of_uint u.
Proof. destruct u; simpl; congruence. Qed.

(** Reading back a printed integer gives the integer. *)
Lemma int_str (z : Z) : Py.int (str z) = Some z.
Proof.
  unfold str. destruct z as [|p|p]; simpl.
  - reflexivity.
  - pose proof (DecimalPos.Unsigned.to_uint_nonnil p) as Hn.
    rewrite (nilzero_nonnil _ Hn), (int_of_uint _ Hn). f_equal.
    change (Z.of_uint (Pos.to_uint p)) with (Z.of_int (Z.to_int (Z.pos p))).
    apply DecimalZ.of_to.
  - pose proof (DecimalPos.Unsigned.to_uint_nonnil p) as Hn.
    rewrite (nilzero_nonnil _ Hn), (int_of_neg_uint _ Hn). f_equal.
    change (- Z.of_uint (Pos.to_uint p)) with (Z.of_int (Z.to_int (Z.neg p))).
    apply DecimalZ.of_to.
Qed.

(** A printed integer contains no tab. *)
Lemma str_lacks_tab (z : Z) : lacks TAB (str z) = true.
Proof.
  unfold str, lacks.
  assert (H : forall u, forallb (fun x => negb (Ascii.eqb x TAB))
                          (NilZero.string_of_uint u) = true).
  { intros u. unfold NilZero.string_of_uint.
    destruct u; try reflexivity;
      apply (forallb_impl isdigit); auto using isdigit_not_tab;
      apply string_of_uint_digits. }
  destruct z as [|p|p]; simpl; auto.
Qed.

End PyFacts.

(* ================================================================== *)
(** * Facts about the search for [NAME=([^;]+)] *)
(* ================================================================== *)

Module ReFacts.

Import Py Re PyFacts.

Lemma lacks_semi_not_semicolon (s : string) :
  lacks semi s = forallb not_semicolon s.
Proof. reflexivity. Qed.

Lemma strip_prefix_app (p r : string) : strip_prefix p (p ++ r) = Some r.
Proof.
  induction p as [|a p IH]; simpl; [now destruct r|].
  now rewrite Ascii.eqb_refl.
Qed.

Lemma strip_prefix_spec (p s r : string) :
  strip_prefix p s = Some r -> s = p ++ r.
Proof.
  revert s. induction p as [|a p IH]; intros s H.
  - destruct s; simpl in H; now inversion H.
  - destruct s as [|b s]; simpl in H; [discriminate|].
    destruct (Ascii.eqb_spec a b) as [->|]; [|discriminate].
    simpl. f_equal. now apply IH.
Qed.

(** A key without [;] cannot start on a [;]. *)
Lemma strip_prefix_semi (p t : string) :
  lacks semi p = true -> p <> EmptyString ->
  strip_prefix p (String semi t) = None.
Proof.
  destruct p as [|a p]; [congruence|]. unfold lacks. simpl. intros H _.
  apply andb_true_iff in H as [H _]. apply negb_true_iff in H. now rewrite H.
Qed.

(** Inside an entry, the literal part of the pattern sees only the entry. *)
Lemma strip_prefix_entry (p e t : string) :
  lacks semi p = true -> p <> EmptyString ->
  strip_prefix p (e ++ String semi t)
  = option_map (fun r => r ++ String semi t) (strip_prefix p e).
Proof.
  intros Hp. revert e. induction p as [|a p IH]; intros e Hne; [congruence|].
  unfold lacks in Hp. simpl in Hp. apply andb_true_iff in Hp as [Ha Hp].
  destruct e as [|b e].
  - simpl. apply negb_true_iff in Ha. now rewrite Ha.
  - simpl. destruct (Ascii.eqb a b); [|reflexivity].
    destruct p as [|a' p'].
    + simpl. now destruct e.
    + apply IH; [exact Hp | discriminate].
Qed.

Lemma strip_prefix_lacks (c : ascii) (p s r : string) :
  strip_prefix p s = Some r -> lacks c s = true -> lacks c r = true.
Proof.
  intros H Hs. apply strip_prefix_spec in H. subst s.
  unfold lacks in *. rewrite forallb_app in Hs.
  now apply andb_true_iff in Hs as [_ Hs].
Qed.

Lemma span_entry (r t : string) :
  lacks semi r = true ->
  fst (span not_semicolon (r ++ String semi t)) = r.
Proof.
  intros H. rewrite span_app; [reflexivity | exact H | reflexivity].
Qed.

Lemma span_whole (r : string) :
  lacks semi r = true -> fst (span not_semicolon r) = r.
Proof. intros H. now rewrite span_all. Qed.

Lemma key_eq_lacks (name : string) :
  lacks semi name = true -> lacks semi (name ++ "=") = true.
Proof.
  unfold lacks. intros H. rewrite forallb_app, H. reflexivity.
Qed.

Lemma key_eq_nonempty (name : string) : name ++ "=" <> EmptyString.
Proof. destruct name; discriminate. Qed.

(** A match that starts inside an entry is decided by the entry alone. *)
Lemma match_info_here_entry (name e t : string) :
  lacks semi name = true -> lacks semi e = true ->
  match_info_here name (e ++ String semi t) = match_info_here name e.
Proof.
  intros Hn He. unfold match_info_here.
  rewrite (strip_prefix_entry _ _ _ (key_eq_lacks _ Hn) (key_eq_nonempty _)).
  destruct (strip_prefix (name ++ "=") e) as [r|] eqn:E; simpl; [|reflexivity].
  pose proof (strip_prefix_lacks _ _ _ _ E He) as Hr.
  now rewrite (span_entry _ _ Hr), (span_whole _ Hr).
Qed.

Lemma match_info_here_semi (name t : string) :
  lacks semi name = true -> match_info_here name (String semi t) = None.
Proof.
  intros Hn. unfold match_info_here.
  now rewrite (strip_prefix_semi _ _ (key_eq_lacks _ Hn) (key_eq_nonempty _)).
Qed.

Lemma match_info_here_empty (name : string) :
  match_info_here name EmptyString = None.
Proof. unfold match_info_here. now destruct name. Qed.

(** The search over [entry;rest] looks in the entry first and, when the
    entry holds no match, goes on with the rest. *)
Lemma search_info_entry (name e t : string) :
  lacks semi name = true -> lacks semi e = true ->
  search_info name (e ++ String semi t)
  = match search_info name e with
    | Some v => Some v
    | None => search_info name t
    end.
Proof.
  intros Hn. induction e as [|c e IH]; intros He.
  - change (EmptyString ++ String semi t) with (String semi t).
    cbn [search_info]. rewrite (match_info_here_semi _ _ Hn).
    now rewrite match_info_here_empty.
  - change (String c e ++ String semi t) with (String c (e ++ String semi t)).
    cbn [search_info].
    change (String c (e ++ String semi t)) with (String c e ++ String semi t).
    rewrite (match_info_here_entry _ _ _ Hn He).
    destruct (match_info_here name (String c e)); [reflexivity|].
    apply IH. unfold lacks in *. simpl in He.
    now apply andb_true_iff in He as [_ He].
Qed.

(** An entry [NAME=value] matches at its first character. *)
Lemma match_info_here_key (name v rest : string) :
  v <> EmptyString -> lacks semi v = true ->
  (rest = EmptyString \/ exists t, rest = String semi t) ->
  match_info_here name (name ++ "=" ++ v ++ rest) = Some v.
Proof.
  intros Hv Hl Hrest. unfold match_info_here.
  replace (name ++ "=" ++ v ++ rest) with ((name ++ "=") ++ v ++ rest)
    by now rewrite append_assoc.
  rewrite strip_prefix_app.
  assert (E : fst (span not_semicolon (v ++ rest)) = v).
  { destruct Hrest as [->|[t ->]].
    - rewrite append_nil_r. now apply span_whole.
    - now apply span_entry. }
  rewrite E. destruct v; congruence.
Qed.

Lemma search_info_key (name v rest : string) :
  v <> EmptyString -> lacks semi v = true ->
  (rest = EmptyString \/ exists t, rest = String semi t) ->
  search_info name (name ++ "=" ++ v ++ rest) = Some v.
Proof.
  intros Hv Hl Hrest.
  destruct (name ++ "=" ++ v ++ rest) eqn:E; cbn [search_info]; rewrite <- E;
    now rewrite match_info_here_key.
Qed.

Lemma info_of_cons (e : string) (entries : list string) :
  entries <> [] -> info_of (e :: entries) = e ++ String semi (info_of entries).
Proof. destruct entries; [congruence | reflexivity]. Qed.

(** The search returns the value of the first entry that holds a match. *)
Lemma search_info_first (name : string) (before : list string) (v : string)
  (after : list string) :
  lacks semi name = true ->
  Forall (fun e => lacks semi e = true /\ search_info name e = None) before ->
  v <> EmptyString -> lacks semi v = true ->
  search_info name (info_of (before ++ (name ++ "=" ++ v) :: after)) = Some v.
Proof.
  intros Hn Hb Hv Hl. induction before as [|e before IH].
  - rewrite app_nil_l.
    destruct after as [|a after].
    + cbn [info_of join].
      pose proof (search_info_key name v EmptyString Hv Hl (or_introl eq_refl)) as K.
      now rewrite append_nil_r in K.
    + rewrite info_of_cons by discriminate.
      replace ((name ++ "=" ++ v) ++ String semi (info_of (a :: after)))
        with (name ++ "=" ++ v ++ String semi (info_of (a :: after)))
        by now rewrite !append_assoc.
      apply search_info_key; eauto.
  - inversion Hb as [|? ? [He Hs] Hb']; subst.
    rewrite <- app_comm_cons.
    rewrite info_of_cons by (destruct before; discriminate).
    rewrite (search_info_entry _ _ _ Hn He), Hs. now apply IH.
Qed.

(** An entry that does not contain the text [NAME=] holds no match. *)
Lemma prefix_strip_prefix (p s : string) :
  prefix p s = false -> strip_prefix p s = None.
Proof.
  revert s. induction p as [|a p IH]; intros s H;
    [destruct s; discriminate H|].
  destruct s as [|b s]; [reflexivity|]. simpl in *.
  destruct (Ascii.eqb_spec a b) as [->|N].
  - destruct (ascii_dec b b); [now apply IH | congruence].
  - reflexivity.
Qed.

Lemma contains_search_info (name e : string) :
  contains (name ++ "=") e = false -> search_info name e = None.
Proof.
  induction e as [|c e IH]; cbn [contains search_info]; intros H;
    apply orb_false_iff in H as [Hp Hc]; unfold match_info_here;
    rewrite (prefix_strip_prefix _ _ Hp); auto.
Qed.

Lemma search_info_nonempty (name s v : string) :
  search_info name s = Some v -> v <> EmptyString.
Proof.
  induction s as [|c s IH]; cbn [search_info]; unfold match_info_here.
  - destruct (strip_prefix (name ++ "=") EmptyString) as [r|]; [|discriminate].
    destruct (fst (span not_semicolon r)); [discriminate|].
    intros H; inversion H; discriminate.
  - destruct (strip_prefix (name ++ "=") (String c s)) as [r|].
    + destruct (fst (span not_semicolon r)); [exact IH|].
      intros H; inversion H; discriminate.
    + exact IH.
Qed.

Lemma search_info_here (name s v : string) :
  match_info_here name s = Some v -> search_info name s = Some v.
Proof. intros H. destruct s; cbn [search_info]; now rewrite H. Qed.

End ReFacts.

(* ================================================================== *)
(** * The interval extractor (src/vcf2bed.py) *)
(* ================================================================== *)

Module Vcf2bedFacts.

Import Py Re Vcf2bed Bed Vcf2bedSpec PyFacts ReFacts.

(** ** The rows written *)

Lemma item_lacks (c : ascii) (l : list string) (i : nat) :
  Forall (fun f => lacks c f = true) l -> lacks c (item l i) = true.
Proof.
  unfold item. revert i. induction l as [|x l IH]; intros [|i] H; simpl;
    try reflexivity; inversion H; subst; auto.
Qed.

Lemma field_lacks_tab (s : string) (i : nat) :
  lacks TAB (item (split_char TAB s) i) = true.
Proof. apply item_lacks, split_char_fields. Qed.

Lemma split3 (c a b r : string) :
  lacks TAB c = true -> lacks TAB a = true -> lacks TAB b = true ->
  exists rest,
    split_char TAB (c ++ String TAB (a ++ String TAB (b ++ String TAB r)))
    = c :: a :: b :: rest.
Proof.
  intros Hc Ha Hb. eexists.
  rewrite (split_char_app _ _ _ Hc), (split_char_app _ _ _ Ha),
    (split_char_app _ _ _ Hb). reflexivity.
Qed.

Lemma bed_row_shape (chrom : string) (a b : Z)
  (var_id ref alt qual filter_field info format_field : string) :
  exists r,
    bed_row chrom a b var_id ref alt qual filter_field info format_field
    = chrom ++ String TAB (str a ++ String TAB (str b ++ String TAB r)).
Proof.
  eexists. unfold bed_row. cbn [join].
  rewrite !append_assoc. cbn [append]. reflexivity.
Qed.

(** A written row carries the interval and the chromosome it was built from. *)
Lemma bed_row_interval (chrom : string) (a b : Z)
  (var_id ref alt qual filter_field info format_field : string) :
  lacks TAB chrom = true ->
  row_interval
    (bed_row chrom a b var_id ref alt qual filter_field info format_field)
  = Some (a, b)
  /\ row_chrom
       (bed_row chrom a b var_id ref alt qual filter_field info format_field)
     = chrom.
Proof.
  intros Hc.
  destruct (bed_row_shape chrom a b var_id ref alt qual filter_field info
              format_field) as [r ->].
  destruct (split3 chrom (str a) (str b) r Hc (str_lacks_tab a) (str_lacks_tab b))
    as [rest E].
  unfold row_interval, row_chrom. rewrite E. unfold item. simpl nth.
  now rewrite !int_str.
Qed.

(** ** The end position *)



(** ** One iteration of the loop *)

Lemma bed_write (row : string) (st : state) :
  bed (write row st) = (bed st ++ [row])%list.
Proof. reflexivity. Qed.

Lemma bed_count_parsed (st : state) : bed (count_parsed st) = bed st.
Proof. reflexivity. Qed.

Lemma bed_count_unparsed (st : state) : bed (count_unparsed st) = bed st.
Proof. reflexivity. Qed.

Lemma bed_tick_line (st : state) : bed (tick_line st) = bed st.
Proof. reflexivity. Qed.


(** ** The extractor on a tidy INFO column *)



(** ** The base interval *)




(** The three ways the end is resolved, on concrete records. *)
Example end_from_END :
  bed (after_line true false init
         (tsv ["chr1"; "1000"; "v"; "A"; "<DEL>"; "."; "."; "SVTYPE=DEL;END=2000;SVLEN=-5"; "GT"]))
  = [tsv ["chr1"; "999"; "2000"; "v"; "A"; "<DEL>"; "."; "."; "SVTYPE=DEL;END=2000;SVLEN=-5"; "GT"]].
Proof. reflexivity. Qed.

Example end_from_negative_SVLEN :
  bed (after_line true false init deletion_by_svlen)
  = [tsv ["chr1"; "999"; "1500"; "varA"; "A"; "<DEL>"; "."; "."; "SVTYPE=DEL;SVLEN=-500"; "GT"]].
Proof. reflexivity. Qed.

Example end_from_positive_SVLEN :
  bed (after_line true false init
         (tsv ["chr1"; "1000"; "v"; "A"; "<DUP>"; "."; "."; "SVTYPE=DUP;SVLEN=500"; "GT"]))
  = [tsv ["chr1"; "999"; "1000"; "v"; "A"; "<DUP>"; "."; "."; "SVTYPE=DUP;SVLEN=500"; "GT"]].
Proof. reflexivity. Qed.

Example end_from_pos :
  bed (after_line true false init
         (tsv ["chr1"; "1000"; "v"; "A"; "<INV>"; "."; "."; "SVTYPE=INV"; "GT"]))
  = [tsv ["chr1"; "999"; "1000"; "v"; "A"; "<INV>"; "."; "."; "SVTYPE=INV"; "GT"]].
Proof. reflexivity. Qed.

(** ** Which occurrence of a key the extractor uses *)

(** C7, as stated, fails: with END given twice the extractor uses the
    first value, not the last. *)
Lemma last_occurrence_refuted :
  extract_info_field "SVTYPE=DEL;END=100;END=200" "END" = Some "100"
  /\ extract_info_field "SVTYPE=DEL;END=100;END=200" "END" <> Some "200"
  /\ bed (after_line true false init
            (tsv ["chr1"; "50"; "v"; "A"; "<DEL>"; "."; "."; "SVTYPE=DEL;END=100;END=200"; "GT"]))
     = [tsv ["chr1"; "49"; "100"; "v"; "A"; "<DEL>"; "."; "."; "SVTYPE=DEL;END=100;END=200"; "GT"]].
Proof. repeat split; try reflexivity. vm_compute. discriminate. Qed.

(** C7, amended. In an INFO column made of entries separated by [;], the
    extractor uses the value of the first entry [NAME=value] for the key,
    whatever follows it (later occurrences of the key included), as long
    as no earlier entry holds a match of [NAME=]. *)
Theorem first_occurrence_wins (name : string) (before : list string) (v : string)
  (after : list string) :
  lacks semi name = true ->
  Forall (fun e => lacks semi e = true /\ search_info name e = None) before ->
  v <> EmptyString -> lacks semi v = true ->
  extract_info_field (info_of (before ++ (name ++ "=" ++ v) :: after)) name
  = Some v.
Proof. intros. unfold extract_info_field. now apply search_info_first. Qed.

Lemma first_occurrence_wins_witness :
  extract_info_field
    (info_of (["SVTYPE=DEL"; "PRECISE"] ++ ("END" ++ "=" ++ "100") :: ["END=200"; "SVLEN=-5"]))
    "END"
  = Some "100".
Proof.
  apply (first_occurrence_wins "END" ["SVTYPE=DEL"; "PRECISE"] "100"
           ["END=200"; "SVLEN=-5"]).
  - reflexivity.
  - repeat constructor.
  - discriminate.
  - reflexivity.
Defined.

(** ** Matches away from a key boundary *)

Lemma search_info_app (name pre s v : string) :
  search_info name s = Some v -> exists v', search_info name (pre ++ s) = Some v'.
Proof.
  intros H. induction pre as [|c pre IH].
  - now exists v.
  - change (String c pre ++ s) with (String c (pre ++ s)). cbn [search_info].
    destruct (match_info_here name (String c (pre ++ s))) as [w|]; eauto.
Qed.

Lemma match_info_here_value (name : string) (c : ascii) (rest : string) :
  c <> semi ->
  exists v, match_info_here name (name ++ "=" ++ String c rest) = Some v.
Proof.
  intros Hc. unfold match_info_here.
  replace (name ++ "=" ++ String c rest) with ((name ++ "=") ++ String c rest)
    by now rewrite append_assoc.
  rewrite strip_prefix_app. cbn [span]. unfold not_semicolon at 1.
  destruct (Ascii.eqb_spec c ";") as [->|_]; [now elim Hc|]. cbn [negb].
  destruct (span not_semicolon rest) as [a b]. cbn [fst]. eauto.
Qed.

(** C10. The extractor matches the text [NAME=] wherever it occurs in the
    INFO column: any occurrence followed by a character other than [;]
    yields a value. In particular, with no END key in the column, the
    value of CIEND is returned for END and becomes the end of the record's
    interval, where the SVLEN/pos rule would have given [pos]. *)
Theorem extractor_matches_inside_keys :
  (forall (pre name : string) (c : ascii) (rest : string),
      c <> semi ->
      extract_info_field (pre ++ name ++ "=" ++ String c rest) name <> None)
  /\ ~ In "END" (info_keys "SVTYPE=DEL;CIEND=100")
  /\ extract_info_field "SVTYPE=DEL;CIEND=100" "END" = Some "100"
  /\ bed (after_line true false init
            (tsv ["chr1"; "50"; "v"; "A"; "<DEL>"; "."; "."; "SVTYPE=DEL;CIEND=100"; "GT"]))
     = [tsv ["chr1"; "49"; "100"; "v"; "A"; "<DEL>"; "."; "."; "SVTYPE=DEL;CIEND=100"; "GT"]].
Proof.
  split; [|split; [|split]].
  - intros pre name c rest Hc. unfold extract_info_field.
    destruct (match_info_here_value name c rest Hc) as [v Hv].
    destruct (search_info_app name pre _ v (search_info_here _ _ _ Hv)) as [v' E].
    rewrite E. discriminate.
  - vm_compute. intros [H|[H|[]]]; discriminate H.
  - reflexivity.
  - reflexivity.
Qed.

(** ** The mate-breakpoint notation *)

Lemma isbracket_not_base (c : ascii) : isbracket c = true -> isbase c = false.
Proof.
  destruct c as [[] [] [] [] [] [] [] []]; vm_compute; congruence.
Qed.

Lemma isbracket_not_digit (c : ascii) : isbracket c = true -> isdigit c = false.
Proof.
  destruct c as [[] [] [] [] [] [] [] []]; vm_compute; congruence.
Qed.

Lemma isbase_not_bracket (c : ascii) : isbase c = true -> isbracket c = false.
Proof.
  destruct c as [[] [] [] [] [] [] [] []]; vm_compute; congruence.
Qed.

Lemma nonempty_cons (s : string) :
  s <> EmptyString -> exists c r, s = String c r.
Proof. destruct s; [congruence | eauto]. Qed.

(** The middle of the patterns recognises exactly [chrom:digits] followed
    by a bracket. *)
Lemma match_mate_complete (chrom digits : string) (b2 : ascii) (rest : string) :
  chrom <> EmptyString -> lacks colon chrom = true ->
  digits <> EmptyString -> forallb isdigit digits = true ->
  isbracket b2 = true ->
  match_mate (chrom ++ String colon (digits ++ String b2 rest))
  = Some (chrom, digits, rest).
Proof.
  intros Hc Hlc Hd Hld Hb. unfold match_mate.
  rewrite (span_app not_colon chrom colon _ Hlc eq_refl).
  destruct (nonempty_cons _ Hc) as (c & r & ->).
  rewrite (span_app isdigit digits b2 rest Hld (isbracket_not_digit _ Hb)).
  destruct (nonempty_cons _ Hd) as (d & r' & ->).
  now rewrite Hb.
Qed.

Lemma match_mate_sound (s chrom digits rest : string) :
  match_mate s = Some (chrom, digits, rest) ->
  exists b2,
    s = chrom ++ String colon (digits ++ String b2 rest) /\
    chrom <> EmptyString /\ lacks colon chrom = true /\
    digits <> EmptyString /\ forallb isdigit digits = true /\
    isbracket b2 = true.
Proof.
  unfold match_mate.
  destruct (span not_colon s) as [ch r1] eqn:E1.
  destruct (span_spec _ _ _ _ E1) as (Es & Hch & _).
  destruct ch as [|c0 ch]; [discriminate|].
  destruct r1 as [|c r2]; [discriminate|].
  destruct (Ascii.eqb_spec c ":") as [->|]; [|discriminate].
  destruct (span isdigit r2) as [ds r3] eqn:E2.
  destruct (span_spec _ _ _ _ E2) as (Er & Hds & _).
  destruct ds as [|d0 ds]; [discriminate|].
  destruct r3 as [|b r4]; [discriminate|].
  destruct (isbracket b) eqn:Hb; [|discriminate].
  intros H; inversion H; subst. exists b.
  repeat split; try assumption; discriminate.
Qed.

Lemma at_end_lacks_LF (s : string) :
  at_end s = true -> lacks LF s = true -> s = EmptyString.
Proof.
  destruct s as [|c [|d s]]; simpl; try congruence.
  unfold lacks. simpl. intros ->. discriminate.
Qed.

Lemma lacks_app (c : ascii) (a b : string) :
  lacks c (a ++ b) = lacks c a && lacks c b.
Proof. apply forallb_app. Qed.

(** Every digit run is an [int()] literal. *)
Lemma uint_of_char_digit (c : ascii) (u : uint) :
  isdigit c = true ->
  exists u', DecimalString.uint_of_char c (Some u) = Some u' /\ u' <> Nil.
Proof.
  destruct c as [[] [] [] [] [] [] [] []]; vm_compute; intros H;
    try discriminate H; eexists; split; try reflexivity; discriminate.
Qed.

Lemma uint_of_digits (ds : string) :
  forallb isdigit ds = true -> exists u, NilEmpty.uint_of_string ds = Some u.
Proof.
  induction ds as [|c ds IH]; simpl; intros H; [eauto|].
  apply andb_true_iff in H as [Hc Hds]. destruct (IH Hds) as [u ->].
  destruct (uint_of_char_digit c u Hc) as (u' & E & _). eauto.
Qed.

Lemma int_of_digits (ds : string) :
  ds <> EmptyString -> forallb isdigit ds = true ->
  exists pos, Py.int ds = Some pos.
Proof.
  intros Hne Hd. destruct (nonempty_cons _ Hne) as (c & r & ->).
  unfold Py.int.
  rewrite (int_strip_nonspace _ (forallb_impl _ _ _ isdigit_nonspace Hd)).
  assert (Hc : isdigit c = true) by (simpl in Hd; now apply andb_true_iff in Hd).
  assert (Hsign :
    match String c r with
    | String "-" r0 => (true, r0)
    | String "+" r0 => (false, r0)
    | _ => (false, String c r)
    end = (false, String c r)).
  { destruct (isdigit_not_sign c Hc) as (N1 & N2 & _).
    destruct c as [[] [] [] [] [] [] [] []]; try reflexivity; congruence. }
  rewrite Hsign, (int_digits_digits false _ Hd) by (left; discriminate).
  unfold digits_value. simpl in Hd. apply andb_true_iff in Hd as [_ Hr].
  cbn [NilEmpty.uint_of_string]. destruct (uint_of_digits r Hr) as [u ->].
  destruct (uint_of_char_digit c u Hc) as (u' & -> & Hu').
  destruct u'; [congruence | eauto ..].
Qed.

(** The patterns find the embedded pair of every well-formed notation. *)
Lemma first_match_complete (lead : string) (b1 : ascii) (chrom digits : string)
  (b2 : ascii) (trail : string) :
  well_formed lead b1 chrom digits b2 trail ->
  first_match patterns (mate_notation lead b1 chrom digits b2 trail)
  = Some (chrom, digits).
Proof.
  intros (Hl & Ht & Hside & Hb1 & Hb2 & Hc & Hlc & Hd & Hld).
  unfold mate_notation, patterns. cbn [first_match].
  destruct lead as [|l0 lead].
  - (* no leading bases: pattern 1 fails on the bracket *)
    change (EmptyString ++ String b1 (chrom ++ String colon (digits ++ String b2 trail)))
      with (String b1 (chrom ++ String colon (digits ++ String b2 trail))).
    unfold pattern1. cbn [span]. rewrite (isbracket_not_base _ Hb1).
    unfold pattern2, pattern3. rewrite Hb1.
    rewrite (match_mate_complete _ _ _ _ Hc Hlc Hd Hld Hb2).
    rewrite (span_all _ _ Ht).
    destruct trail as [|t0 trail]; reflexivity.
  - (* leading bases: the trailing run is empty *)
    destruct Hside as [Hside | ->]; [discriminate|].
    unfold pattern1.
    rewrite (span_app isbase (String l0 lead) b1 _ Hl (isbracket_not_base _ Hb1)).
    rewrite Hb1, (match_mate_complete _ _ _ _ Hc Hlc Hd Hld Hb2).
    reflexivity.
Qed.

Ltac norm_append := repeat (rewrite ?append_assoc; cbn [append]).

(** Whatever the patterns find is the embedded pair of a well-formed
    notation, followed by nothing or by one final line feed. *)
Lemma first_match_sound (alt chrom digits : string) :
  first_match patterns alt = Some (chrom, digits) ->
  exists lead b1 b2 trail tail,
    well_formed lead b1 chrom digits b2 trail /\
    at_end tail = true /\
    alt = mate_notation lead b1 chrom digits b2 trail ++ tail.
Proof.
  unfold patterns. cbn [first_match].
  destruct (pattern1 alt) as [m|] eqn:P1.
  { intros [= ->]. unfold pattern1 in P1.
    destruct (span isbase alt) as [bases r] eqn:E.
    destruct (span_spec _ _ _ _ E) as (Ealt & Hbases & _).
    destruct bases as [|l0 bases]; [discriminate|].
    destruct r as [|b r']; [discriminate|].
    destruct (isbracket b) eqn:Hb; [|discriminate].
    destruct (match_mate r') as [[[c d] rest]|] eqn:M; [|discriminate].
    destruct (at_end rest) eqn:A; [|discriminate].
    inversion P1; subst c d.
    destruct (match_mate_sound _ _ _ _ M) as (b2 & Er & Hc & Hlc & Hd & Hld & Hb2).
    exists (String l0 bases), b, b2, EmptyString, rest. split; [|split].
    - repeat split; auto.
    - exact A.
    - subst alt r'. unfold mate_notation. now norm_append. }
  destruct (pattern2 alt) as [m|] eqn:P2.
  { intros [= ->]. unfold pattern2 in P2.
    destruct alt as [|b r]; [discriminate|].
    destruct (isbracket b) eqn:Hb; [|discriminate].
    destruct (match_mate r) as [[[c d] rest]|] eqn:M; [|discriminate].
    destruct (span isbase rest) as [bases r'] eqn:E.
    destruct (span_spec _ _ _ _ E) as (Erest & Hbases & _).
    destruct bases as [|l0 bases]; [discriminate|].
    destruct (at_end r') eqn:A; [|discriminate].
    inversion P2; subst c d.
    destruct (match_mate_sound _ _ _ _ M) as (b2 & Er & Hc & Hlc & Hd & Hld & Hb2).
    exists EmptyString, b, b2, (String l0 bases), r'. split; [|split].
    - repeat split; auto.
    - exact A.
    - subst r rest. unfold mate_notation. now norm_append. }
  destruct (pattern3 alt) as [m|] eqn:P3; [|discriminate].
  intros [= ->]. unfold pattern3 in P3.
  destruct alt as [|b r]; [discriminate|].
  destruct (isbracket b) eqn:Hb; [|discriminate].
  destruct (match_mate r) as [[[c d] rest]|] eqn:M; [|discriminate].
  destruct (at_end rest) eqn:A; [|discriminate].
  inversion P3; subst c d.
  destruct (match_mate_sound _ _ _ _ M) as (b2 & Er & Hc & Hlc & Hd & Hld & Hb2).
  exists EmptyString, b, b2, EmptyString, rest. split; [|split].
  - repeat split; auto.
  - exact A.
  - subst r. unfold mate_notation. now norm_append.
Qed.

(** [parse_bnd_alt] never raises: the digits it converts are a literal. *)
Lemma parse_bnd_alt_total (alt : string) : exists m, parse_bnd_alt alt = Ok m.
Proof.
  unfold parse_bnd_alt.
  destruct (first_match patterns alt) as [[chrom digits]|] eqn:F; [|eauto].
  destruct (first_match_sound _ _ _ F)
    as (lead & b1 & b2 & trail & tail & W & _ & _).
  destruct W as (_ & _ & _ & _ & _ & _ & _ & Hd & Hld).
  destruct (int_of_digits _ Hd Hld) as [pos E].
  unfold int_or_raise. rewrite E. cbn [bind]. eauto.
Qed.

Lemma parse_bnd_alt_complete (alt chrom : string) (pos : Z) :
  bnd_grammar alt chrom pos -> parse_bnd_alt alt = Ok (Some (chrom, pos)).
Proof.
  intros (lead & b1 & digits & b2 & trail & W & -> & E).
  unfold parse_bnd_alt. rewrite (first_match_complete _ _ _ _ _ _ W).
  unfold int_or_raise. now rewrite E.
Qed.

Lemma parse_bnd_alt_sound (alt chrom : string) (pos : Z) :
  lacks LF alt = true ->
  parse_bnd_alt alt = Ok (Some (chrom, pos)) -> bnd_grammar alt chrom pos.
Proof.
  intros Hlf. unfold parse_bnd_alt.
  destruct (first_match patterns alt) as [[c digits]|] eqn:F; [|discriminate].
  unfold int_or_raise. destruct (Py.int digits) as [p|] eqn:E; [|discriminate].
  cbn [bind]. intros [= -> ->].
  destruct (first_match_sound _ _ _ F)
    as (lead & b1 & b2 & trail & tail & W & A & Ealt).
  assert (tail = EmptyString) as ->.
  { apply at_end_lacks_LF; [exact A|]. subst alt.
    rewrite lacks_app in Hlf. now apply andb_true_iff in Hlf as [_ Hlf]. }
  rewrite append_nil_r in Ealt.
  exists lead, b1, digits, b2, trail. auto.
Qed.

Lemma parse_bnd_alt_unresolved (alt : string) :
  lacks LF alt = true ->
  (forall chrom pos, ~ bnd_grammar alt chrom pos) ->
  parse_bnd_alt alt = Ok None.
Proof.
  intros Hlf Hno. destruct (parse_bnd_alt_total alt) as [[[chrom pos]|] E];
    [|exact E].
  elim (Hno chrom pos). now apply parse_bnd_alt_sound.
Qed.

(** ** The ALT column of a line read from a file *)

Lemma lacks_snoc (c x : ascii) (s : string) :
  lacks c (s ++ String x EmptyString) = lacks c s && negb (Ascii.eqb x c).
Proof. rewrite lacks_app. unfold lacks at 2. simpl. now rewrite andb_true_r. Qed.

Lemma readlines_go_shape (cur s : string) :
  lacks LF cur = true -> Forall line_shape (readlines_go cur s).
Proof.
  revert cur. induction s as [|c s IH]; intros cur Hcur; cbn [readlines_go].
  - destruct cur; constructor; [|constructor]. eexists; eauto.
  - destruct (Ascii.eqb c LF) eqn:E.
    + constructor; [|now apply IH].
      apply Ascii.eqb_eq in E. subst c. exists cur. auto.
    + apply IH. rewrite lacks_snoc, Hcur, E. reflexivity.
Qed.

Lemma readlines_shape (input line : string) :
  In line (readlines input) -> line_shape line.
Proof.
  intros H. pose proof (readlines_go_shape EmptyString input eq_refl) as F.
  rewrite Forall_forall in F. now apply F.
Qed.

Lemma rstrip_snoc_space (s : string) (c : ascii) :
  isspace c = true -> rstrip (s ++ String c EmptyString) = rstrip s.
Proof.
  intros Hc. induction s as [|x s IH]; simpl.
  - now rewrite Hc.
  - now rewrite IH.
Qed.

Lemma lacks_rstrip (c : ascii) (s : string) :
  lacks c s = true -> lacks c (rstrip s) = true.
Proof.
  unfold lacks. induction s as [|x s IH]; simpl; intros H; [reflexivity|].
  apply andb_true_iff in H as [Hx Hs]. specialize (IH Hs).
  destruct (rstrip s).
  - destruct (isspace x); simpl; [reflexivity | now rewrite Hx].
  - simpl in *. now rewrite Hx, IH.
Qed.

Lemma lacks_lstrip (c : ascii) (s : string) :
  lacks c s = true -> lacks c (lstrip s) = true.
Proof.
  unfold lacks. induction s as [|x s IH]; simpl; intros H; [reflexivity|].
  apply andb_true_iff in H as [Hx Hs].
  destruct (isspace x); [now apply IH | simpl; now rewrite Hx, Hs].
Qed.

Lemma strip_line_lacks_LF (l : string) :
  line_shape l -> lacks LF (strip l) = true.
Proof.
  intros (body & Hb & [->| ->]); unfold strip.
  - now apply lacks_lstrip, lacks_rstrip.
  - rewrite rstrip_snoc_space by reflexivity.
    now apply lacks_lstrip, lacks_rstrip.
Qed.

Lemma split_char_lacks (c sep : ascii) (s : string) :
  lacks c s = true -> Forall (fun f => lacks c f = true) (split_char sep s).
Proof.
  unfold lacks. induction s as [|x s IH]; simpl; intros H.
  - repeat constructor.
  - apply andb_true_iff in H as [Hx Hs]. specialize (IH Hs).
    destruct (Ascii.eqb x sep).
    + constructor; [reflexivity | exact IH].
    + destruct (split_char sep s) as [|h t].
      * repeat constructor. simpl. now rewrite Hx.
      * inversion IH; subst. constructor; [|assumption].
        simpl. now rewrite Hx.
Qed.

(** No column of a line read from a file contains a line feed. *)
Lemma field_lacks_LF (input line : string) (i : nat) :
  In line (readlines input) -> lacks LF (item (fields_of line) i) = true.
Proof.
  intros H. apply item_lacks, split_char_lacks, strip_line_lacks_LF.
  now apply (readlines_shape input).
Qed.

(** ** Data lines *)

Lemma vcf_line_data (parse_bnd include_ins : bool) (st : state) (line : string)
  (pos end_pos : Z) :
  data_line line pos end_pos ->
  opt_str_eqb (svtype_of line) "INS" && negb include_ins = false ->
  vcf_line parse_bnd include_ins st line
  = let st1 := write (primary_row line pos end_pos) (tick_line st) in
    if opt_str_eqb (svtype_of line) "BND" && parse_bnd then
      m <- parse_bnd_alt (alt_of line) ;;
      if mate_truthy m then
        match m with
        | Some (bnd_chrom, bnd_pos) =>
            Ok (count_parsed
                  (write (mate_row line bnd_chrom (fst (mate_interval bnd_pos))
                            (snd (mate_interval bnd_pos))) st1))
        | None => Ok st1
        end
      else Ok (count_unparsed st1)
    else Ok st1.
Proof.
  intros (Hh & Hlen & Hpos & Hend) Hins.
  unfold vcf_line, svtype_of, alt_of, primary_row, mate_row, fields_of in *.
  rewrite Hh.
  destruct (Z.ltb_spec (Z.of_nat (List.length (split_char TAB (strip line)))) 9);
    [lia|].
  unfold int_or_raise at 1. rewrite Hpos. cbn [bind].
  rewrite Hins, Hend. cbn [bind].
  assert (L : (9 <=? Z.of_nat (List.length (split_char TAB (strip line)))) = true)
    by (apply Z.leb_le; lia).
  rewrite L. cbv zeta.
  destruct (opt_str_eqb _ "BND" && parse_bnd); [|reflexivity].
  destruct (parse_bnd_alt _) as [m|]; [|reflexivity]. cbn [bind].
  destruct (mate_truthy m); [|reflexivity].
  destruct m as [[bnd_chrom bnd_pos]|]; [|reflexivity].
  now destruct (mate_interval bnd_pos).
Qed.

(** A BND record whose mate is not truthy is counted as unparsed: only its
    primary row is written and the loop goes on. *)
Lemma vcf_line_bnd_unparsed (include_ins : bool) (st : state) (line : string)
  (pos end_pos : Z) (m : option (string * Z)) :
  data_line line pos end_pos ->
  svtype_of line = Some "BND" ->
  parse_bnd_alt (alt_of line) = Ok m ->
  mate_truthy m = false ->
  vcf_line true include_ins st line
  = Ok (count_unparsed (write (primary_row line pos end_pos) (tick_line st))).
Proof.
  intros D Hsv Hm Ht.
  rewrite (vcf_line_data true include_ins st line pos end_pos D)
    by (rewrite Hsv; reflexivity).
  rewrite Hsv, Hm. cbn. now rewrite Ht.
Qed.

Lemma vcf_lines_app (parse_bnd include_ins : bool) (st : state)
  (l1 l2 : list string) :
  vcf_lines parse_bnd include_ins st (l1 ++ l2)
  = match vcf_lines parse_bnd include_ins st l1 with
    | (st', None) => vcf_lines parse_bnd include_ins st' l2
    | r => r
    end.
Proof.
  revert st. induction l1 as [|l l1 IH]; intros st; [reflexivity|].
  rewrite <- app_comm_cons. cbn [vcf_lines].
  destruct (vcf_line parse_bnd include_ins st l); [apply IH | reflexivity].
Qed.

(** ** The breakpoint resolver and its caller *)

(** C2. For every ALT text in one of the mate-breakpoint grammars,
    [parse_bnd_alt] returns the embedded (chrom, pos); [N]chr2:5000]] gives
    [("chr2", 5000)]. It never raises, and for every ALT column of a line
    read from a file (such a column holds no line feed) that is in none of
    the grammars it returns [(None, None)]; the caller then writes the
    primary row only, counts the record as unparsed and goes on with the
    next line. *)
Theorem parse_bnd_alt_resolves (alt : string) :
  (forall chrom pos,
      bnd_grammar alt chrom pos -> parse_bnd_alt alt = Ok (Some (chrom, pos)))
  /\ parse_bnd_alt "N]chr2:5000]" = Ok (Some ("chr2", 5000))
  /\ (exists m, parse_bnd_alt alt = Ok m)
  /\ (lacks LF alt = true ->
      (forall chrom pos, ~ bnd_grammar alt chrom pos) ->
      parse_bnd_alt alt = Ok None)
  /\ (forall input line,
        In line (readlines input) -> alt_of line = alt ->
        (forall chrom pos, ~ bnd_grammar alt chrom pos) ->
        parse_bnd_alt alt = Ok None /\
        forall include_ins st pos end_pos rest,
          data_line line pos end_pos -> svtype_of line = Some "BND" ->
          let st' :=
            count_unparsed (write (primary_row line pos end_pos) (tick_line st)) in
          vcf_line true include_ins st line = Ok st' /\
          unparsed_bnd_count st' = unparsed_bnd_count st + 1 /\
          vcf_lines true include_ins st (line :: rest)
          = vcf_lines true include_ins st' rest).
Proof.
  split; [|split; [|split; [|split]]].
  - intros chrom pos. apply parse_bnd_alt_complete.
  - reflexivity.
  - apply parse_bnd_alt_total.
  - apply parse_bnd_alt_unresolved.
  - intros input line Hin Halt Hno.
    assert (E : parse_bnd_alt alt = Ok None).
    { apply parse_bnd_alt_unresolved; [|exact Hno].
      subst alt. now apply (field_lacks_LF input). }
    split; [exact E|].
    intros include_ins st pos end_pos rest D Hsv st'.
    assert (V : vcf_line true include_ins st line = Ok st').
    { apply (vcf_line_bnd_unparsed include_ins st line pos end_pos None D Hsv);
        [now rewrite Halt | reflexivity]. }
    split; [exact V|]. split; [reflexivity|].
    cbn [vcf_lines]. now rewrite V.
Qed.

Lemma parse_bnd_alt_resolves_witness :
  parse_bnd_alt "N[chr7:1234[" = Ok (Some ("chr7", 1234))
  /\ parse_bnd_alt "<BND>" = Ok None
  /\ (let st' :=
        count_unparsed (write (primary_row symbolic_bnd 100 100) (tick_line init)) in
      vcf_line true false init symbolic_bnd = Ok st' /\
      unparsed_bnd_count st' = unparsed_bnd_count init + 1 /\
      vcf_lines true false init [symbolic_bnd; good_line]
      = vcf_lines true false st' [good_line]).
Proof.
  assert (N : forall chrom pos, ~ bnd_grammar "<BND>" chrom pos).
  { intros chrom pos G.
    pose proof (proj1 (parse_bnd_alt_resolves "<BND>") chrom pos G) as K.
    vm_compute in K. discriminate K. }
  split; [|split].
  - apply (proj1 (parse_bnd_alt_resolves "N[chr7:1234[") "chr7" 1234).
    exists "N", "["%char, "1234", "["%char, EmptyString.
    repeat split; try reflexivity; try discriminate. now right.
  - apply (proj1 (proj2 (proj2 (proj2 (parse_bnd_alt_resolves "<BND>")))));
      [reflexivity | exact N].
  - apply (proj2 (proj2 (proj2 (proj2 (proj2 (parse_bnd_alt_resolves "<BND>"))))
                   (symbolic_bnd ++ good_line) symbolic_bnd
                   (or_introl eq_refl) eq_refl N)).
    + repeat split; try reflexivity; try (vm_compute; discriminate).
    + reflexivity.
Defined.

(** C6: what the code does with a mate at position 0. The resolver
    returns the position, but the caller tests it for truth: the record is
    counted as unparsed and no mate row is written. *)
Theorem telomeric_mate_is_dropped (include_ins : bool) (st : state)
  (line chrom : string) (pos end_pos : Z) :
  data_line line pos end_pos ->
  svtype_of line = Some "BND" ->
  parse_bnd_alt (alt_of line) = Ok (Some (chrom, 0)) ->
  exists st',
    vcf_line true include_ins st line = Ok st' /\
    bed st' = (bed st ++ [primary_row line pos end_pos])%list /\
    parsed_bnd_count st' = parsed_bnd_count st /\
    unparsed_bnd_count st' = unparsed_bnd_count st + 1.
Proof.
  intros D Hsv Hm. eexists. split.
  - apply (vcf_line_bnd_unparsed include_ins st line pos end_pos _ D Hsv Hm).
    now destruct chrom.
  - repeat split.
Qed.

Lemma telomeric_mate_is_dropped_witness :
  exists st',
    vcf_line true false init telomeric_bnd = Ok st' /\
    bed st' = (bed init ++ [primary_row telomeric_bnd 100 100])%list /\
    parsed_bnd_count st' = parsed_bnd_count init /\
    unparsed_bnd_count st' = unparsed_bnd_count init + 1.
Proof.
  apply (telomeric_mate_is_dropped false init telomeric_bnd "chr2" 100 100).
  - repeat split; try reflexivity; try (vm_compute; discriminate).
  - reflexivity.
  - reflexivity.
Defined.

Example telomeric_run :
  vcf_to_bed telomeric_bnd true false
  = (mkState 1 1 0 0 1
       [tsv ["chr1"; "99"; "100"; "bnd1"; "N"; "N]chr2:0]"; "."; "."; "SVTYPE=BND"; "GT"]]
       [],
     Returned).
Proof. reflexivity. Qed.

(** A mate at a position other than 0 gets its row. *)
Example resolved_mate_run :
  bed (fst (vcf_to_bed
    (tsv ["chr1"; "100"; "bnd1"; "N"; "N]chr2:5000]"; "."; "."; "SVTYPE=BND"; "GT"])
    true false))
  = [tsv ["chr1"; "99"; "100"; "bnd1"; "N"; "N]chr2:5000]"; "."; "."; "SVTYPE=BND"; "GT"];
     tsv ["chr2"; "4999"; "5000"; "bnd1"; "N"; "N]chr2:5000]"; "."; "."; "SVTYPE=BND"; "GT"]].
Proof. reflexivity. Qed.

(** ** Malformed lines *)

(** C8, as stated, fails twice: a position that is not an integer ends
    the run with exit status 1 before the next line is read, and a line
    of exactly eight columns is rejected for its column count. *)
Lemma malformed_line_refuted :
  vcf_to_bed (bad_pos_line ++ good_line) true false
  = (mkState 1 0 0 0 0 [] [ErrorMessage (InvalidLiteral "abc")], SysExit 1)
  /\ vcf_to_bed good_line true false
     = (mkState 1 1 0 0 0
          [tsv ["chr1"; "999"; "2000"; "v2"; "A"; "<DEL>"; "."; "."; "SVTYPE=DEL;END=2000"; "GT"]]
          [],
        Returned)
  /\ List.length (fields_of eight_field_line) = 8%nat
  /\ vcf_to_bed eight_field_line true false
     = (mkState 1 0 0 0 0 [] [WarnInsufficientFields 1], Returned).
Proof. repeat split; reflexivity. Qed.

(** C8, amended. After any lines processed without error, a data line
    with fewer than eight columns is reported and skipped, nothing is
    written for it, and the loop goes on with the following lines; a data
    line with nine columns or more whose position is not an integer is
    not skipped: the error is reported and the run ends with exit status
    1, the following lines unread. *)
Theorem malformed_line_handling (parse_bnd include_ins : bool)
  (before : list string) (st : state) (line : string) (rest : list string) :
  vcf_lines parse_bnd include_ins init before = (st, None) ->
  startswith line "#" = false ->
  (Z.of_nat (List.length (fields_of line)) < 8 ->
   let st' := warn (WarnInsufficientFields (line_count st + 1)) (tick_line st) in
   bed st' = bed st /\
   vcf_lines parse_bnd include_ins init (before ++ line :: rest)
   = vcf_lines parse_bnd include_ins st' rest)
  /\ (9 <= Z.of_nat (List.length (fields_of line)) ->
      Py.int (item (fields_of line) 1) = None ->
      finish (vcf_lines parse_bnd include_ins init (before ++ line :: rest))
      = (warn (ErrorMessage (InvalidLiteral (item (fields_of line) 1)))
           (tick_line st),
         SysExit 1)).
Proof.
  intros Hb Hh. split.
  - intros Hlen st'. split; [reflexivity|].
    rewrite vcf_lines_app, Hb. cbn [vcf_lines].
    unfold vcf_line. rewrite Hh. fold (fields_of line).
    destruct (Z.ltb_spec (Z.of_nat (List.length (fields_of line))) 9); [|lia].
    reflexivity.
  - intros Hlen Hpos.
    rewrite vcf_lines_app, Hb. cbn [vcf_lines].
    unfold vcf_line. rewrite Hh. fold (fields_of line).
    destruct (Z.ltb_spec (Z.of_nat (List.length (fields_of line))) 9); [lia|].
    unfold int_or_raise at 1. rewrite Hpos. reflexivity.
Qed.

Lemma malformed_line_handling_witness :
  (let st' := warn (WarnInsufficientFields (line_count (tick_line init) + 1))
                (tick_line (tick_line init)) in
   bed st' = bed (tick_line init) /\
   vcf_lines true false init (["#CHROM"] ++ tsv ["chr1"; "1000"; "v"] :: [good_line])
   = vcf_lines true false st' [good_line])
  /\ finish (vcf_lines true false init (["#CHROM"] ++ bad_pos_line :: [good_line]))
     = (warn (ErrorMessage (InvalidLiteral (item (fields_of bad_pos_line) 1)))
          (tick_line (tick_line init)),
        SysExit 1).
Proof.
  split.
  - apply (proj1 (malformed_line_handling true false ["#CHROM"] (tick_line init)
                    (tsv ["chr1"; "1000"; "v"]) [good_line] eq_refl eq_refl)).
    reflexivity.
  - apply (proj2 (malformed_line_handling true false ["#CHROM"] (tick_line init)
                    bad_pos_line [good_line] eq_refl eq_refl)).
    + vm_compute. discriminate.
    + reflexivity.
Defined.

Lemma extractor_matches_inside_keys_witness :
  extract_info_field ("SVTYPE=DEL;CI" ++ "END" ++ "=" ++ String "1" "00;SVLEN=-5") "END"
  <> None.
Proof.
  apply (proj1 extractor_matches_inside_keys "SVTYPE=DEL;CI" "END" "1"%char
           "00;SVLEN=-5").
  discriminate.
Defined.

End Vcf2bedFacts.

(* ================================================================== *)
(** * The flank expander (src/bed_processor.py) *)
(* ================================================================== *)

Module BedProcessorFacts.

Import Py Re BedProcessor Bed BedProcessorSpec PyFacts ReFacts.

Lemma process_deletion_row (chrom : string) (start end_ : Z) (fields : list string)
  (flank_size min_coord : Z) :
  process_deletion chrom start end_ fields flank_size min_coord
  = [flank_row fields (Z.max min_coord (start - flank_size)) (end_ + flank_size)].
Proof. reflexivity. Qed.

Lemma process_duplication_inversion_rows (chrom : string) (start end_ : Z)
  (fields : list string) (flank_size min_coord : Z) (svtype : string) :
  process_duplication_inversion chrom start end_ fields flank_size min_coord svtype
  = [flank_row fields (Z.max min_coord (start - flank_size)) (start + flank_size);
     flank_row fields (Z.max min_coord (end_ - flank_size)) (end_ + flank_size)].
Proof. reflexivity. Qed.

(** Reading a rebuilt row back gives the columns of the input with the
    new interval in the second and third. *)
Lemma flank_row_fields (l : string) (fields : list string) (s e : Z) :
  fields = split_char TAB l ->
  split_char TAB (flank_row fields s e)
  = set_item (set_item fields 1 (str s)) 2 (str e).
Proof.
  intros ->. unfold flank_row, tab. apply split_char_join.
  - destruct (split_char_cons TAB l) as (h & t & ->).
    destruct t as [|x [|y t]]; discriminate.
  - apply set_item_Forall; [apply set_item_Forall|]; auto using str_lacks_tab.
    apply split_char_fields.
Qed.

Lemma flank_row_interval (l : string) (fields : list string) (s e : Z) :
  fields = split_char TAB l ->
  8 <= Z.of_nat (List.length fields) ->
  row_interval (flank_row fields s e) = Some (s, e).
Proof.
  intros Hf Hlen. unfold row_interval. rewrite (flank_row_fields l _ _ _ Hf).
  rewrite item_set_item_other by discriminate.
  rewrite item_set_item_same by lia.
  rewrite item_set_item_same by (rewrite set_item_length; lia).
  now rewrite !int_str.
Qed.


Lemma opt_str_eqb_true (o : option string) (s : string) :
  opt_str_eqb o s = true <-> o = Some s.
Proof.
  destruct o as [t|]; simpl.
  - rewrite String.eqb_eq. split; congruence.
  - split; discriminate.
Qed.

Lemma truthy_some (v : string) : v <> EmptyString -> truthy (Some v) = true.
Proof. destruct v; [congruence | reflexivity]. Qed.

Lemma extract_svtype_info_nonempty (info svtype : string) :
  extract_svtype info = Some svtype -> info <> EmptyString.
Proof. intros H ->. discriminate H. Qed.

(** What [process_bed_line] returns for a classified line. *)
Lemma process_bed_line_sv (line : string) (fields : list string) (start end_ : Z)
  (svtype : string) (flank_size min_coord line_num : Z) (skip_invalid : bool) :
  sv_line line fields start end_ svtype ->
  process_bed_line line flank_size min_coord line_num skip_invalid
  = Ok (if String.eqb svtype "DEL" then
          [flank_row fields (Z.max min_coord (start - flank_size))
             (end_ + flank_size)]
        else if String.eqb svtype "DUP" || String.eqb svtype "INV" then
          [flank_row fields (Z.max min_coord (start - flank_size))
             (start + flank_size);
           flank_row fields (Z.max min_coord (end_ - flank_size))
             (end_ + flank_size)]
        else [strip line]).
Proof.
  intros (Hne & Hh & Hf & Hlen & Hs & He & info & Hi & Hsv).
  unfold process_bed_line.
  destruct (String.eqb_spec (strip line) EmptyString) as [E|_]; [contradiction|].
  rewrite Hh. cbn [orb]. rewrite <- Hf.
  destruct (Z.ltb_spec (Z.of_nat (List.length fields)) 8); [lia|].
  unfold int_or_raise. rewrite Hs, He. cbn [bind]. rewrite Hi.
  rewrite (truthy_some _ (extract_svtype_info_nonempty _ _ Hsv)). cbn [negb].
  rewrite Hsv.
  rewrite (truthy_some _ (search_info_nonempty _ _ _ Hsv)). cbn [negb opt_str_eqb].
  rewrite process_deletion_row, process_duplication_inversion_rows.
  destruct (String.eqb svtype "DEL"); [reflexivity|].
  destruct (String.eqb svtype "DUP" || String.eqb svtype "INV"); reflexivity.
Qed.





(** ** The coordinate floor *)

(** The ways [process_bed_line] can return: nothing, the stripped line
    itself, or the rows of a classified line. *)
Lemma process_bed_line_cases (line : string) (flank_size min_coord line_num : Z)
  (skip_invalid : bool) (rows : list string) :
  process_bed_line line flank_size min_coord line_num skip_invalid = Ok rows ->
  rows = [] \/ rows = [strip line] \/
  exists fields start end_ svtype,
    sv_line line fields start end_ svtype /\ flanked_type svtype.
Proof.
  unfold process_bed_line.
  destruct (String.eqb_spec (strip line) EmptyString) as [E|Hne].
  { cbn [orb]. intros [= <-]. now left. }
  cbn [orb]. destruct (startswith (strip line) "#") eqn:Hh.
  { intros [= <-]. right; now left. }
  destruct (Z.ltb_spec (Z.of_nat (List.length (split_char TAB (strip line)))) 8)
    as [Hlen|Hlen].
  { destruct skip_invalid; [|discriminate]. intros [= <-]. now left. }
  unfold int_or_raise.
  destruct (Py.int (item (split_char TAB (strip line)) 1)) as [start|] eqn:Hs;
    cbn [bind]; [|destruct skip_invalid; [|discriminate]; intros [= <-]; now left].
  destruct (Py.int (item (split_char TAB (strip line)) 2)) as [end_|] eqn:He;
    cbn [bind]; [|destruct skip_invalid; [|discriminate]; intros [= <-]; now left].
  destruct (find_info (split_char TAB (strip line))) as [info|] eqn:Hi;
    [|cbn; intros [= <-]; right; now left].
  destruct (truthy (Some info)); cbn [negb]; [|intros [= <-]; right; now left].
  destruct (extract_svtype info) as [svtype|] eqn:Hsv;
    [|cbn; intros [= <-]; right; now left].
  destruct (truthy (Some svtype)); cbn [negb]; [|intros [= <-]; right; now left].
  assert (S : sv_line line (split_char TAB (strip line)) start end_ svtype).
  { refine (conj Hne (conj Hh (conj eq_refl (conj _ (conj Hs (conj He
              (ex_intro _ info (conj Hi Hsv)))))))). lia. }
  cbn [opt_str_eqb].
  destruct (String.eqb_spec svtype "DEL") as [->|_].
  { intros _. right; right. exists (split_char TAB (strip line)), start, end_, "DEL".
    split; [exact S | now left]. }
  destruct (String.eqb_spec svtype "DUP") as [->|_].
  { intros _. right; right. exists (split_char TAB (strip line)), start, end_, "DUP".
    split; [exact S | right; now left]. }
  destruct (String.eqb_spec svtype "INV") as [->|_].
  { intros _. right; right. exists (split_char TAB (strip line)), start, end_, "INV".
    split; [exact S | right; now right]. }
  cbn [orb]. intros [= <-]. right; now left.
Qed.





End BedProcessorFacts.

(* ================================================================== *)
(** * The multi-row aggregator (src/squash_intersect.py) *)
(* ================================================================== *)

Module SquashIntersectFacts.

Import Py SquashIntersect SquashIntersectSpec PyFacts.

Lemma lookup_append_to (key k : string) (elements : list string) (d : variants_dict) :
  lookup key (append_to k elements d)
  = if String.eqb k key then extended (lookup key d) [elements] else lookup key d.
Proof.
  induction d as [|[k' v] d IH]; cbn [append_to lookup].
  - destruct (String.eqb k key); reflexivity.
  - destruct (String.eqb_spec k' k) as [->|N]; cbn [lookup].
    + destruct (String.eqb k key); reflexivity.
    + destruct (String.eqb_spec k' key) as [->|N'].
      * destruct (String.eqb_spec k key) as [->|_]; [congruence | reflexivity].
      * exact IH.
Qed.

Lemma extended_assoc (old : option (list (list string))) (e : list string)
  (cs : list (list string)) :
  extended (extended old [e]) cs = extended old (e :: cs).
Proof.
  destruct old as [v|]; cbn; [now rewrite <- app_assoc | reflexivity].
Qed.

(** The loop appends to each key its contributions, in order. *)
Lemma squash_lines_lookup (key delimiter : string) (skip_header : bool)
  (lines : list string) (line_num : Z) (variants final : variants_dict) :
  squash_lines delimiter skip_header line_num variants lines = Ok final ->
  lookup key final
  = extended (lookup key variants)
      (contributions key delimiter skip_header line_num lines).
Proof.
  revert line_num variants.
  induction lines as [|line rest IH]; intros line_num variants;
    cbn [squash_lines contributions].
  - intros [= <-]. destruct (lookup key variants); cbn [extended];
      [now rewrite app_nil_r | reflexivity].
  - destruct ((line_num =? 1) && skip_header); [apply IH|].
    destruct (process_bed_line line delimiter line_num) as [[[id elements]|]|];
      cbn [bind]; [| apply IH | discriminate].
    intros H. rewrite (IH _ _ H), lookup_append_to.
    destruct (String.eqb id key); [apply extended_assoc | reflexivity].
Qed.

(** Every tuple has nine fields. *)
Lemma process_bed_line_width (line delimiter : string) (line_num : Z)
  (id : string) (elements : list string) :
  process_bed_line line delimiter line_num = Ok (Some (id, elements)) ->
  List.length elements = 9%nat.
Proof.
  unfold process_bed_line.
  destruct (String.eqb (strip line) EmptyString || startswith (strip line) "#");
    [discriminate|].
  destruct (split (strip line) delimiter) as [columns|]; [|discriminate].
  destruct (Z.ltb_spec (Z.of_nat (List.length columns)) 19); [discriminate|].
  intros H'. assert (E : elements = firstn 9 (skipn 10 columns)) by congruence.
  rewrite E, length_firstn, length_skipn. lia.
Qed.

Lemma contributions_width (key delimiter : string) (skip_header : bool)
  (lines : list string) (line_num : Z) :
  Forall (fun t => List.length t = 9%nat)
    (contributions key delimiter skip_header line_num lines).
Proof.
  revert line_num. induction lines as [|line rest IH]; intros line_num;
    cbn [contributions]; [constructor|].
  destruct ((line_num =? 1) && skip_header); [apply IH|].
  destruct (process_bed_line line delimiter line_num) as [[[id elements]|]|] eqn:E;
    try apply IH.
  destruct (String.eqb id key); [|apply IH].
  constructor; [|apply IH]. now apply (process_bed_line_width _ _ _ _ _ E).
Qed.

(** ** Reading the Elements column back *)

Lemma lacks_join (c sep : ascii) (l : list string) :
  Ascii.eqb sep c = false ->
  Forall (fun f => lacks c f = true) l ->
  lacks c (join (String sep EmptyString) l) = true.
Proof.
  intros Hsep. induction l as [|x l IH]; intros H; [reflexivity|].
  inversion H as [|? ? Hx Hl]; subst. destruct l as [|y l]; [exact Hx|].
  change (join (String sep EmptyString) (x :: y :: l))
    with (x ++ String sep (join (String sep EmptyString) (y :: l))).
  unfold lacks in *. rewrite forallb_app, Hx. cbn [forallb andb].
  rewrite Hsep. cbn [negb andb]. now apply IH.
Qed.

Lemma split_elements_combined (element_lists : list (list string)) :
  element_lists <> [] ->
  Forall (fun t => t <> []) element_lists ->
  delimiter_free element_lists ->
  split_elements (combined_elements element_lists) = element_lists.
Proof.
  intros Hne Hw Hfree. unfold split_elements, combined_elements.
  change "|" with (String pipe EmptyString).
  rewrite split_char_join.
  - rewrite map_map. unfold delimiter_free in Hfree.
    induction element_lists as [|t ts IH]; [reflexivity|].
    inversion Hw as [|? ? Ht Hts]; inversion Hfree as [|? ? Ft Fts]; subst.
    cbn [map]. f_equal.
    + change "," with (String comma EmptyString). apply split_char_join; [exact Ht|].
      eapply Forall_impl; [|exact Ft]. now intros f [? _].
    + destruct ts as [|t' ts]; [reflexivity|].
      apply IH; [discriminate | assumption | assumption].
  - destruct element_lists; [congruence | discriminate].
  - unfold delimiter_free in Hfree. rewrite Forall_map.
    eapply Forall_impl; [|exact Hfree]. intros t Ft.
    change "," with (String comma EmptyString).
    apply lacks_join; [reflexivity|].
    eapply Forall_impl; [|exact Ft]. now intros f [_ ?].
Qed.

(** ** The rows written *)

Lemma in_insert_sorted (x k : string) (l : list string) :
  In x (insert_sorted k l) <-> x = k \/ In x l.
Proof.
  induction l as [|y l IH]; cbn [insert_sorted].
  - cbn. intuition.
  - destruct (String.leb k y); cbn [In]; [intuition|].
    rewrite IH. intuition.
Qed.

Lemma in_sorted (x : string) (l : list string) : In x (sorted l) <-> In x l.
Proof.
  induction l as [|y l IH]; cbn [sorted fold_right]; [tauto|].
  fold (sorted l). rewrite in_insert_sorted, IH. cbn. intuition.
Qed.

Lemma lookup_in_keys (key : string) (d : variants_dict) (v : list (list string)) :
  lookup key d = Some v -> In key (map fst d).
Proof.
  induction d as [|[k w] d IH]; cbn [lookup map fst In]; [discriminate|].
  destruct (String.eqb_spec k key) as [->|_]; [now left | right; auto].
Qed.

Lemma write_output_row (variants : variants_dict) (no_header : bool) (key : string)
  (element_lists : list (list string)) :
  lookup key variants = Some element_lists ->
  In (format_output_line key element_lists ++ String LF EmptyString)
     (write_output variants no_header).
Proof.
  intros H. unfold write_output. apply in_or_app. right.
  apply in_map_iff. exists key. rewrite H. split; [reflexivity|].
  apply in_sorted. now apply (lookup_in_keys _ _ _ H).
Qed.

(** ** The round trip *)

(** C5, as stated, fails: a field that holds a comma (or a pipe) is split
    when the Elements column is read back, so the tuples are not
    reproduced. *)
Lemma round_trip_refuted :
  let lines := [row_with "v1" "chr1,alt"; row_with "v1" "chr1|alt"] in
  let tuples :=
    [["chr1,alt"; "11"; "19"; "AluY"; "SINE/Alu"; "+"; "1"; "300"; "7"];
     ["chr1|alt"; "11"; "19"; "AluY"; "SINE/Alu"; "+"; "1"; "300"; "7"]] in
  squash_variants lines (String TAB EmptyString) false = Ok [("v1", tuples)]
  /\ write_output [("v1", tuples)] true
     = [Vcf2bed.tsv ["v1";
          "chr1,alt,11,19,AluY,SINE/Alu,+,1,300,7|chr1|alt,11,19,AluY,SINE/Alu,+,1,300,7"]]
  /\ split_elements (combined_elements tuples)
     = [["chr1"; "alt"; "11"; "19"; "AluY"; "SINE/Alu"; "+"; "1"; "300"; "7"];
        ["chr1"];
        ["alt"; "11"; "19"; "AluY"; "SINE/Alu"; "+"; "1"; "300"; "7"]]
  /\ split_elements (combined_elements tuples) <> tuples.
Proof. cbv zeta. repeat split; try reflexivity. vm_compute. discriminate. Qed.

(** C5, amended. For every key of the aggregate, the tuples kept for it
    are those of its contributing rows in the order of the rows, its row
    of the output is the key, a tab and the tuples joined by commas within
    a tuple and by pipes between tuples, and, when no field of these
    tuples contains a comma or a pipe, splitting that column on the pipe
    and each piece on the comma gives the tuples back in that order. *)
Theorem elements_round_trip (lines : list string) (delimiter : string)
  (skip_header no_header : bool) (variants : variants_dict) (key : string)
  (element_lists : list (list string)) :
  squash_variants lines delimiter skip_header = Ok variants ->
  lookup key variants = Some element_lists ->
  element_lists = contributions key delimiter skip_header 1 lines
  /\ element_lists <> []
  /\ In (key ++ String TAB EmptyString ++ combined_elements element_lists
           ++ String LF EmptyString)
       (write_output variants no_header)
  /\ (delimiter_free element_lists ->
      split_elements (combined_elements element_lists) = element_lists).
Proof.
  intros Hs Hl. unfold squash_variants in Hs.
  pose proof (squash_lines_lookup key _ _ _ _ _ _ Hs) as E.
  rewrite Hl in E. cbn [lookup extended] in E.
  pose proof (contributions_width key delimiter skip_header lines 1) as W.
  destruct (contributions key delimiter skip_header 1 lines) as [|c cs] eqn:C;
    [discriminate|].
  inversion E; subst element_lists.
  split; [reflexivity|]. split; [discriminate|]. split.
  - pose proof (write_output_row variants no_header key _ Hl) as R.
    unfold format_output_line in R. now rewrite !append_assoc in R.
  - intros Hfree. apply split_elements_combined; [discriminate | | exact Hfree].
    eapply Forall_impl; [|exact W]. intros t Ht ->. discriminate Ht.
Qed.

Lemma elements_round_trip_witness :
  let tuples :=
    [["chr1"; "11"; "19"; "AluY"; "SINE/Alu"; "+"; "1"; "300"; "7"];
     ["chr9"; "11"; "19"; "AluY"; "SINE/Alu"; "+"; "1"; "300"; "7"]] in
  let lines := [row_with "v1" "chr1"; row_with "v2" "chr2"; row_with "v1" "chr9"] in
  let variants :=
    [("v1", tuples);
     ("v2", [["chr2"; "11"; "19"; "AluY"; "SINE/Alu"; "+"; "1"; "300"; "7"]])] in
  tuples = contributions "v1" (String TAB EmptyString) false 1 lines
  /\ tuples <> []
  /\ In ("v1" ++ String TAB EmptyString ++ combined_elements tuples
           ++ String LF EmptyString)
       (write_output variants true)
  /\ split_elements (combined_elements tuples) = tuples.
Proof.
  cbv zeta.
  pose proof (elements_round_trip
    [row_with "v1" "chr1"; row_with "v2" "chr2"; row_with "v1" "chr9"]
    (String TAB EmptyString) false true
    [("v1", [["chr1"; "11"; "19"; "AluY"; "SINE/Alu"; "+"; "1"; "300"; "7"];
             ["chr9"; "11"; "19"; "AluY"; "SINE/Alu"; "+"; "1"; "300"; "7"]]);
     ("v2", [["chr2"; "11"; "19"; "AluY"; "SINE/Alu"; "+"; "1"; "300"; "7"]])]
    "v1" _ eq_refl eq_refl) as (H1 & H2 & H3 & H4).
  split; [exact H1|]. split; [exact H2|]. split; [exact H3|].
  apply H4. repeat constructor.
Defined.

End SquashIntersectFacts.

(* ================================================================== *)
(** * Whole runs of the converter (src/vcf2bed.py) *)
(* ================================================================== *)

Module Vcf2bedRuns.

Import Py Re Vcf2bed Bed Vcf2bedSpec RunSpec PyFacts ReFacts Vcf2bedFacts.

(** Every iteration that raises nothing has one of the listed effects. *)
Lemma vcf_line_effect (parse_bnd include_ins : bool) (st st' : state)
  (line : string) :
  vcf_line parse_bnd include_ins st line = Ok st' ->
  line_effect parse_bnd line st st'.
Proof.
  unfold vcf_line. destruct (startswith line "#") eqn:Hh.
  { intros [= <-]. now constructor. }
  fold (fields_of line).
  destruct (Z.ltb_spec (Z.of_nat (List.length (fields_of line))) 9) as [Hlen|Hlen].
  { intros [= <-]. change (line_count (tick_line st)) with (line_count st + 1).
    constructor. }
  unfold int_or_raise at 1.
  destruct (Py.int (item (fields_of line) 1)) as [pos|]; [|discriminate].
  cbn [bind].
  destruct (opt_str_eqb _ "INS" && negb include_ins).
  { intros [= <-]. constructor. }
  destruct (end_position pos _ _) as [end_pos|]; [|discriminate]. cbn [bind].
  assert (L : (9 <=? Z.of_nat (List.length (fields_of line))) = true)
    by (apply Z.leb_le; lia).
  rewrite L.
  fold (primary_row line pos end_pos).
  destruct (opt_str_eqb _ "BND" && parse_bnd) eqn:Hb.
  - apply andb_true_iff in Hb as [_ ->].
    fold (alt_of line).
    destruct (parse_bnd_alt (alt_of line)) as [m|] eqn:Hm; [|discriminate].
    cbn [bind]. destruct (mate_truthy m) eqn:Ht.
    + destruct m as [[bnd_chrom bnd_pos]|]; [|discriminate Ht].
      assert (Hz : bnd_pos <> 0).
      { destruct bnd_chrom; [discriminate Ht|]. cbn in Ht.
        apply negb_true_iff, Z.eqb_neq in Ht. exact Ht. }
      unfold mate_interval. destruct (Z.eqb_spec bnd_pos 0); [contradiction|].
      intros [= <-]. now apply (effect_parsed true line st pos end_pos bnd_chrom bnd_pos).
    + intros [= <-]. now constructor.
  - intros [= <-]. constructor.
Qed.

(** ** The summary counters *)

Lemma effect_consistent (parse_bnd : bool) (line : string) (st st' : state) :
  line_effect parse_bnd line st st' -> consistent st -> consistent st'.
Proof.
  unfold consistent.
  intros E (Hv & Hp & Hu & Hs & H2 & Hl).
  destruct E; cbn [variant_count parsed_bnd_count unparsed_bnd_count
                     skipped_ins_count line_count bed tick_line warn skip_ins
                     write count_parsed count_unparsed];
    rewrite ?length_app; cbn [List.length]; repeat split; lia.
Qed.

Lemma tick_consistent (st : state) : consistent st -> consistent (tick_line st).
Proof.
  unfold consistent. cbn. intros (Hv & Hp & Hu & Hs & H2 & Hl).
  repeat split; lia.
Qed.

Lemma effect_line_count (parse_bnd : bool) (line : string) (st st' : state) :
  line_effect parse_bnd line st st' -> line_count st' = line_count st + 1.
Proof. intros E; destruct E; reflexivity. Qed.

Lemma vcf_lines_consistent (parse_bnd include_ins : bool) (lines : list string)
  (st : state) :
  consistent st ->
  let r := vcf_lines parse_bnd include_ins st lines in
  consistent (fst r)
  /\ line_count (fst r) <= line_count st + Z.of_nat (List.length lines)
  /\ (snd r = None ->
      line_count (fst r) = line_count st + Z.of_nat (List.length lines)).
Proof.
  revert st. induction lines as [|line rest IH]; intros st C; cbn [vcf_lines].
  - cbn. split; [exact C|]. split; [lia | intros _; lia].
  - destruct (vcf_line parse_bnd include_ins st line) as [st'|e] eqn:V.
    + pose proof (vcf_line_effect _ _ _ _ _ V) as E.
      destruct (IH st' (effect_consistent _ _ _ _ E C)) as (C' & Hle & Heq).
      rewrite (effect_line_count _ _ _ _ E) in Hle, Heq.
      cbn [List.length]. split; [exact C'|]. split; [lia|].
      intros Hn. specialize (Heq Hn). lia.
    + cbn [fst snd]. split; [now apply tick_consistent|].
      split; [cbn; lia | discriminate].
Qed.

Lemma init_consistent : consistent init.
Proof. unfold consistent. cbn. repeat split; lia. Qed.

(** X1. Whatever the input and the options, the counters of the summary
    agree with the output: [variant_count] is the number of rows written,
    every parsed BND accounts for two rows and every unparsed one for one,
    the records written and the insertions skipped do not exceed the
    lines read, and [line_count] is the number of lines of the input when
    the run was not cut short. *)
Theorem run_is_consistent (input : string) (parse_bnd include_ins : bool) :
  let r := vcf_lines parse_bnd include_ins init (readlines input) in
  consistent (fst r)
  /\ line_count (fst r) <= Z.of_nat (List.length (readlines input))
  /\ (snd r = None ->
      line_count (fst r) = Z.of_nat (List.length (readlines input)))
  /\ bed (fst (vcf_to_bed input parse_bnd include_ins)) = bed (fst r).
Proof.
  cbv zeta.
  destruct (vcf_lines_consistent parse_bnd include_ins (readlines input) init
              init_consistent) as (C & Hle & Heq).
  cbn [line_count init] in Hle, Heq.
  split; [exact C|]. split; [lia|]. split; [exact Heq|].
  unfold vcf_to_bed, finish.
  destruct (vcf_lines parse_bnd include_ins init (readlines input)) as [st [e|]];
    reflexivity.
Qed.

(** ** Without BND parsing *)

Lemma vcf_lines_no_bnd (include_ins : bool) (lines : list string) (st : state) :
  parsed_bnd_count st = 0 -> unparsed_bnd_count st = 0 ->
  let st' := fst (vcf_lines false include_ins st lines) in
  parsed_bnd_count st' = 0 /\ unparsed_bnd_count st' = 0.
Proof.
  revert st. induction lines as [|line rest IH]; intros st Hp Hu; cbn [vcf_lines].
  - now split.
  - destruct (vcf_line false include_ins st line) as [st1|e] eqn:V.
    + pose proof (vcf_line_effect _ _ _ _ _ V) as E.
      apply IH; destruct E; try discriminate; assumption.
    + now split.
Qed.

(** X2. With BND parsing switched off no mate row is ever written: both
    BND counters stay at zero and the output holds at most one row per
    line read. *)
Theorem no_bnd_parse_one_row_per_line (input : string) (include_ins : bool) :
  let st := fst (vcf_to_bed input false include_ins) in
  parsed_bnd_count st = 0 /\ unparsed_bnd_count st = 0
  /\ Z.of_nat (List.length (bed st)) <= line_count st.
Proof.
  cbv zeta. unfold vcf_to_bed.
  destruct (vcf_lines_no_bnd include_ins (readlines input) init eq_refl eq_refl)
    as [Hp Hu].
  destruct (vcf_lines_consistent false include_ins (readlines input) init
              init_consistent) as ((Hv & _ & _ & Hs & _ & Hl) & _).
  destruct (vcf_lines false include_ins init (readlines input)) as [st [e|]];
    cbn [fst finish warn parsed_bnd_count unparsed_bnd_count bed line_count] in *;
    repeat split; try assumption; lia.
Qed.

(** ** Insertions *)



(** ** Mate rows *)

Lemma parse_bnd_alt_chrom_lacks (c : ascii) (alt chrom : string) (pos : Z) :
  parse_bnd_alt alt = Ok (Some (chrom, pos)) ->
  lacks c alt = true -> lacks c chrom = true.
Proof.
  unfold parse_bnd_alt.
  destruct (first_match patterns alt) as [[ch digits]|] eqn:F; [|discriminate].
  unfold int_or_raise. destruct (Py.int digits); [|discriminate]. cbn [bind].
  intros [= -> _] Hl.
  destruct (first_match_sound _ _ _ F)
    as (lead & b1 & b2 & trail & tail & _ & _ & ->).
  unfold mate_notation in Hl. rewrite !lacks_app in Hl.
  apply andb_true_iff in Hl as [Hl _]. apply andb_true_iff in Hl as [_ Hl].
  unfold lacks in Hl |- *. cbn [forallb] in Hl.
  apply andb_true_iff in Hl as [_ Hl]. rewrite forallb_app in Hl.
  now apply andb_true_iff in Hl as [Hl _].
Qed.



(** ** The shape of the output *)

Lemma lacks_tab_LF (s : string) :
  lacks TAB s = true -> lacks TAB (s ++ String LF EmptyString) = true.
Proof. intros H. now rewrite lacks_snoc, H. Qed.

Lemma bed_row_columns (chrom : string) (a b : Z)
  (var_id ref alt qual filter_field info format_field : string) :
  Forall (fun f => lacks TAB f = true)
    [chrom; var_id; ref; alt; qual; filter_field; info; format_field] ->
  split_char TAB
    (bed_row chrom a b var_id ref alt qual filter_field info format_field)
  = [chrom; str a; str b; var_id; ref; alt; qual; filter_field; info;
     format_field ++ String LF EmptyString].
Proof.
  intros F.
  assert (E : bed_row chrom a b var_id ref alt qual filter_field info format_field
              = join (String TAB EmptyString)
                  [chrom; str a; str b; var_id; ref; alt; qual; filter_field;
                   info; format_field ++ String LF EmptyString]).
  { unfold bed_row. cbn [join]. now norm_append. }
  rewrite E. apply split_char_join; [discriminate|].
  repeat match goal with
         | H : Forall _ (_ :: _) |- _ => inversion H; subst; clear H
         end.
  repeat constructor; auto using str_lacks_tab, lacks_tab_LF.
Qed.

Lemma bed_row_record (chrom : string) (a b : Z)
  (var_id ref alt qual filter_field info format_field : string) :
  Forall (fun f => lacks TAB f = true)
    [chrom; var_id; ref; alt; qual; filter_field; info; format_field] ->
  bed_record (bed_row chrom a b var_id ref alt qual filter_field info format_field).
Proof.
  intros F. unfold bed_record. split; [|split].
  - now rewrite bed_row_columns.
  - exists a, b. apply bed_row_interval. now inversion F.
  - unfold bed_row. eauto.
Qed.

Lemma primary_row_record (line : string) (pos end_pos : Z) :
  bed_record (primary_row line pos end_pos).
Proof.
  unfold primary_row. apply bed_row_record.
  repeat constructor; apply field_lacks_tab.
Qed.

Lemma mate_row_record (line chrom : string) (s e : Z) :
  lacks TAB chrom = true -> bed_record (mate_row line chrom s e).
Proof.
  intros H. unfold mate_row. apply bed_row_record.
  repeat constructor; try apply field_lacks_tab. exact H.
Qed.

Lemma effect_records (parse_bnd : bool) (line : string) (st st' : state) :
  line_effect parse_bnd line st st' ->
  Forall bed_record (bed st) -> Forall bed_record (bed st').
Proof.
  intros E F.
  assert (P : forall pos end_pos,
             Forall bed_record (bed st ++ [primary_row line pos end_pos])).
  { intros pos end_pos. apply Forall_app. split; [exact F|].
    constructor; [apply primary_row_record | constructor]. }
  destruct E;
    rewrite ?bed_count_parsed, ?bed_count_unparsed, ?bed_write, ?bed_tick_line;
    try exact F; try apply P.
  apply Forall_app. split; [apply P|].
  constructor; [|constructor]. apply mate_row_record.
  match goal with
  | H : parse_bnd_alt _ = _ |- _ =>
      apply (parse_bnd_alt_chrom_lacks TAB _ _ _ H)
  end.
  apply field_lacks_tab.
Qed.

Lemma vcf_lines_records (parse_bnd include_ins : bool) (lines : list string)
  (st : state) :
  Forall bed_record (bed st) ->
  Forall bed_record (bed (fst (vcf_lines parse_bnd include_ins st lines))).
Proof.
  revert st. induction lines as [|line rest IH]; intros st F; cbn [vcf_lines].
  - exact F.
  - destruct (vcf_line parse_bnd include_ins st line) as [st'|e] eqn:V.
    + apply IH. apply (effect_records _ _ _ _ (vcf_line_effect _ _ _ _ _ V) F).
    + exact F.
Qed.

(** X5. Whatever the input, every row the converter writes is a BED
    record: exactly ten tab-separated columns, integers in the second and
    third, and a line feed at the end, also when the run is cut short
    by an error. *)
Theorem output_rows_are_bed_records (input : string) (parse_bnd include_ins : bool) :
  Forall bed_record (bed (fst (vcf_to_bed input parse_bnd include_ins))).
Proof.
  pose proof (vcf_lines_records parse_bnd include_ins (readlines input) init
                (Forall_nil _)) as F.
  unfold vcf_to_bed, finish.
  destruct (vcf_lines parse_bnd include_ins init (readlines input)) as [st [e|]];
    exact F.
Qed.

End Vcf2bedRuns.

(* ================================================================== *)
(** * Whole runs of the flank expander (src/bed_processor.py) *)
(* ================================================================== *)

Module BedProcessorRuns.

Import Py Re BedProcessor Bed BedProcessorSpec RunSpec PyFacts ReFacts
  BedProcessorFacts.

(** ** [strip] is idempotent *)

Lemma lstrip_idem (s : string) : lstrip (lstrip s) = lstrip s.
Proof.
  induction s as [|c s IH]; [reflexivity|]. cbn [lstrip].
  destruct (isspace c) eqn:E; [exact IH|]. cbn [lstrip]. now rewrite E.
Qed.

Lemma rstrip_ends_nonspace (s : string) :
  ends_nonspace s = true -> rstrip s = s.
Proof.
  induction s as [|c s IH]; [discriminate|]. cbn [ends_nonspace rstrip].
  destruct s as [|d s].
  - intros H. cbn. apply negb_true_iff in H. now rewrite H.
  - intros H. rewrite (IH H). reflexivity.
Qed.

Lemma rstrip_shape (s : string) :
  rstrip s = EmptyString \/ ends_nonspace (rstrip s) = true.
Proof.
  induction s as [|c s IH]; [now left|]. cbn [rstrip].
  destruct (rstrip s) as [|d r] eqn:E.
  - destruct (isspace c) eqn:Hc; [now left|]. right. cbn. now rewrite Hc.
  - right. destruct IH as [IH|IH]; [discriminate|]. exact IH.
Qed.

Lemma ends_nonspace_lstrip (s : string) :
  ends_nonspace s = true -> ends_nonspace (lstrip s) = true.
Proof.
  induction s as [|c s IH]; [discriminate|]. cbn [lstrip].
  destruct (isspace c) eqn:Hc; [|tauto].
  destruct s as [|d s]; cbn [ends_nonspace].
  - rewrite Hc. discriminate.
  - exact IH.
Qed.

Lemma strip_idem (s : string) : strip (strip s) = strip s.
Proof.
  unfold strip. destruct (rstrip_shape s) as [E|E].
  - rewrite E. reflexivity.
  - rewrite (rstrip_ends_nonspace _ (ends_nonspace_lstrip _ E)).
    apply lstrip_idem.
Qed.

(** ** Errors *)

Lemma process_bed_line_skipping (line : string)
  (flank_size min_coord line_num : Z) :
  exists rows,
    process_bed_line line flank_size min_coord line_num true = Ok rows /\
    (List.length rows <= 2)%nat.
Proof.
  unfold process_bed_line.
  destruct (String.eqb (strip line) EmptyString); cbn [orb].
  { eexists; split; [reflexivity | cbn; lia]. }
  destruct (startswith (strip line) "#").
  { eexists; split; [reflexivity | cbn; lia]. }
  destruct (Z.of_nat (List.length (split_char TAB (strip line))) <? 8).
  { eexists; split; [reflexivity | cbn; lia]. }
  unfold int_or_raise.
  destruct (Py.int (item (split_char TAB (strip line)) 1)); cbn [bind];
    [|eexists; split; [reflexivity | cbn; lia]].
  destruct (Py.int (item (split_char TAB (strip line)) 2)); cbn [bind];
    [|eexists; split; [reflexivity | cbn; lia]].
  destruct (negb (truthy (find_info (split_char TAB (strip line)))));
    [eexists; split; [reflexivity | cbn; lia]|].
  destruct (negb (truthy (extract_svtype _)));
    [eexists; split; [reflexivity | cbn; lia]|].
  destruct (opt_str_eqb _ "DEL");
    [eexists; split; [reflexivity | cbn; lia]|].
  destruct (opt_str_eqb _ "DUP" || opt_str_eqb _ "INV");
    eexists; split; try reflexivity; cbn; lia.
Qed.

Lemma process_bed_line_skips_invalid (line : string)
  (flank_size min_coord line_num : Z) :
  invalid_line line ->
  process_bed_line line flank_size min_coord line_num true = Ok [].
Proof.
  unfold invalid_line, process_bed_line.
  intros (Hne & Hh & Hbad).
  destruct (String.eqb_spec (strip line) EmptyString); [contradiction|].
  rewrite Hh. cbn [orb].
  destruct (Z.ltb_spec (Z.of_nat (List.length (split_char TAB (strip line)))) 8);
    [reflexivity|].
  unfold int_or_raise.
  destruct Hbad as [Hbad | [Hbad | Hbad]]; [lia | now rewrite Hbad |].
  rewrite Hbad.
  now destruct (Py.int (item (split_char TAB (strip line)) 1)).
Qed.

(** X6. With [skip_invalid], [process_bed_line] never raises: every line
    gives a list of at most two rows, and an invalid line gives none. *)
Theorem skip_invalid_never_raises (line : string)
  (flank_size min_coord line_num : Z) :
  (exists rows,
      process_bed_line line flank_size min_coord line_num true = Ok rows /\
      (List.length rows <= 2)%nat)
  /\ (invalid_line line ->
      process_bed_line line flank_size min_coord line_num true = Ok []).
Proof.
  split; [apply process_bed_line_skipping | apply process_bed_line_skips_invalid].
Qed.

Lemma skip_invalid_never_raises_witness :
  process_bed_line short_row 1000 0 7 true = Ok [].
Proof.
  apply (proj2 (skip_invalid_never_raises short_row 1000 0 7)).
  repeat split; try discriminate. left. vm_compute. reflexivity.
Defined.

Lemma process_bed_line_raises_iff (line : string)
  (flank_size min_coord line_num : Z) :
  (exists e, process_bed_line line flank_size min_coord line_num false = Raise e)
  <-> invalid_line line.
Proof.
  unfold invalid_line, process_bed_line. split.
  - intros [e H].
    destruct (String.eqb_spec (strip line) EmptyString); cbn [orb] in H;
      [discriminate|].
    destruct (startswith (strip line) "#"); [discriminate|].
    split; [assumption|]. split; [reflexivity|].
    destruct (Z.ltb_spec (Z.of_nat (List.length (split_char TAB (strip line)))) 8);
      [now left|]. right.
    unfold int_or_raise in H.
    destruct (Py.int (item (split_char TAB (strip line)) 1)); [|now left].
    destruct (Py.int (item (split_char TAB (strip line)) 2)); [|now right].
    exfalso. cbn [bind] in H.
    destruct (negb (truthy (find_info (split_char TAB (strip line)))));
      [discriminate|].
    destruct (negb (truthy (extract_svtype _))); [discriminate|].
    destruct (opt_str_eqb _ "DEL"); [discriminate|].
    destruct (opt_str_eqb _ "DUP" || opt_str_eqb _ "INV"); discriminate.
  - intros (Hne & Hh & Hbad).
    destruct (String.eqb_spec (strip line) EmptyString); [contradiction|].
    rewrite Hh. cbn [orb].
    destruct (Z.ltb_spec (Z.of_nat (List.length (split_char TAB (strip line)))) 8);
      [eauto|].
    unfold int_or_raise.
    destruct Hbad as [Hbad | [Hbad | Hbad]]; [lia | rewrite Hbad; cbn; eauto |].
    rewrite Hbad.
    destruct (Py.int (item (split_char TAB (strip line)) 1)); cbn; eauto.
Qed.

(** X7. Without [skip_invalid], [process_bed_line] raises exactly on the
    invalid lines: lines that are neither empty nor comments and have
    fewer than eight columns or a start or end that [int()] rejects (a
    number padded with one of the separators [0x1c..0x1f] included).
    A missing or unknown SVTYPE is never an error. *)
Theorem raises_exactly_on_invalid_lines (line : string)
  (flank_size min_coord line_num : Z) :
  (exists e, process_bed_line line flank_size min_coord line_num false = Raise e)
  <-> invalid_line line.
Proof. apply process_bed_line_raises_iff. Qed.

(** X8. White space around a line does not matter, and a row that was
    passed through unchanged is passed through unchanged again. *)
Theorem pass_through_is_idempotent (line : string)
  (flank_size min_coord line_num : Z) (skip_invalid : bool) :
  process_bed_line (strip line) flank_size min_coord line_num skip_invalid
  = process_bed_line line flank_size min_coord line_num skip_invalid
  /\ (process_bed_line line flank_size min_coord line_num skip_invalid
      = Ok [strip line] ->
      process_bed_line (strip line) flank_size min_coord line_num skip_invalid
      = Ok [strip line]).
Proof.
  assert (E : process_bed_line (strip line) flank_size min_coord line_num skip_invalid
              = process_bed_line line flank_size min_coord line_num skip_invalid).
  { unfold process_bed_line. now rewrite strip_idem. }
  split; [exact E | now rewrite E].
Qed.

Lemma pass_through_is_idempotent_witness :
  process_bed_line (strip padded_bnd_row) 1000 0 1 false
  = Ok [strip padded_bnd_row].
Proof.
  apply (proj2 (pass_through_is_idempotent
                  padded_bnd_row 1000 0 1 false)).
  reflexivity.
Defined.

(** ** The loop over a file *)

Lemma process_bed_line_at_most_two (line : string)
  (flank_size min_coord line_num : Z) (skip_invalid : bool) (rows : list string) :
  process_bed_line line flank_size min_coord line_num skip_invalid = Ok rows ->
  (List.length rows <= 2)%nat.
Proof.
  intros H.
  destruct (process_bed_line_cases _ _ _ _ _ _ H)
    as [-> | [-> | (fields & start & end_ & svtype & S & T)]];
    [cbn; lia | cbn; lia |].
  rewrite (process_bed_line_sv _ _ _ _ _ _ _ _ _ S) in H.
  destruct T as [-> | [-> | ->]]; cbn in H; inversion H; cbn; lia.
Qed.

Lemma write_rows_effect (rows : list string) (st : file_state) :
  exists k : nat,
    (k <= List.length rows)%nat /\
    lines_written (write_rows rows st) = lines_written st + Z.of_nat k /\
    List.length (outfile (write_rows rows st)) = (List.length (outfile st) + k)%nat /\
    lines_read (write_rows rows st) = lines_read st /\
    lines_skipped (write_rows rows st) = lines_skipped st /\
    (rows = [] -> write_rows rows st = st).
Proof.
  unfold write_rows. revert st. induction rows as [|row rows IH]; intros st.
  - exists 0%nat. cbn. repeat split; lia.
  - cbn [fold_left]. destruct (IH (write_row st row)) as (k & Hk & Hw & Ho & Hr & Hs & _).
    unfold write_row in *. destruct (String.eqb row EmptyString).
    + exists k. cbn [List.length]. repeat split; try assumption; try lia.
      discriminate.
    + exists (S k). cbn [List.length lines_written outfile lines_read lines_skipped] in *.
      rewrite length_app in Ho. cbn [List.length] in Ho.
      repeat split; try assumption; try lia. discriminate.
Qed.

Lemma process_bed_lines_consistent (flank_size min_coord : Z) (skip_invalid : bool)
  (lines : list string) (line_num : Z) (st : file_state) :
  file_consistent st ->
  let r := process_bed_lines flank_size min_coord skip_invalid line_num st lines in
  file_consistent (fst r)
  /\ lines_read (fst r) <= lines_read st + Z.of_nat (List.length lines)
  /\ (snd r = None ->
      lines_read (fst r) = lines_read st + Z.of_nat (List.length lines)).
Proof.
  revert line_num st. induction lines as [|line rest IH]; intros line_num st C;
    cbn [process_bed_lines].
  - cbn. split; [exact C|]. split; [lia | intros _; lia].
  - destruct (process_bed_line line flank_size min_coord line_num skip_invalid)
      as [rows|e] eqn:P.
    + pose proof (process_bed_line_at_most_two _ _ _ _ _ _ P) as L2.
      match goal with
      | |- context [process_bed_lines _ _ _ _ ?s rest] => set (st3 := s)
      end.
      assert (C3 : file_consistent st3 /\ lines_read st3 = lines_read st + 1).
      { subst st3. unfold file_consistent in *.
        destruct C as (Hw & Hs0 & Hs & Hb).
        destruct (write_rows_effect rows
                    (mkFile (lines_read st + 1) (lines_written st)
                       (lines_skipped st) (outfile st)))
          as (k & Hk & Hw' & Ho' & Hr' & Hs' & Hnil).
        cbn [lines_read lines_written lines_skipped outfile] in *.
        destruct rows as [|r0 rows].
        - rewrite (Hnil eq_refl).
          cbn [lines_read lines_written lines_skipped outfile].
          repeat split; lia.
        - cbn [List.length] in *. repeat split; lia. }
      destruct C3 as [C3 R3].
      destruct (IH (line_num + 1) st3 C3) as (C' & Hle & Heq).
      cbn [List.length]. split; [exact C'|]. split; [lia|].
      intros Hn. specialize (Heq Hn). lia.
    + cbn [fst snd]. split; [|split; [cbn; lia | discriminate]].
      unfold file_consistent in *.
      cbn [lines_read lines_written lines_skipped outfile].
      destruct C as (Hw & Hs0 & Hs & Hb). repeat split; lia.
Qed.

Lemma process_bed_lines_skip_invalid (flank_size min_coord : Z)
  (lines : list string) (line_num : Z) (st : file_state) :
  snd (process_bed_lines flank_size min_coord true line_num st lines) = None.
Proof.
  revert line_num st. induction lines as [|line rest IH]; intros line_num st;
    cbn [process_bed_lines]; [reflexivity|].
  destruct (process_bed_line_skipping line flank_size min_coord line_num)
    as (rows & -> & _).
  apply IH.
Qed.

(** X9. Whatever the input and the options, the counters
    [process_bed_file] returns agree with its output: [lines_written] is
    the number of rows in the output file, at most two per line that was
    not skipped, and [lines_read] is the number of lines of the input when
    no error stopped the run. With [skip_invalid] no line stops it and
    [main] returns 0. *)
Theorem expander_run_is_consistent (input : string) (flank_size min_coord : Z)
  (skip_invalid : bool) :
  let r := process_bed_file input flank_size min_coord skip_invalid in
  file_consistent (fst r)
  /\ lines_read (fst r) <= Z.of_nat (List.length (readlines input))
  /\ (snd r = None ->
      lines_read (fst r) = Z.of_nat (List.length (readlines input)))
  /\ (skip_invalid = true -> snd r = None /\ main_status r = 0).
Proof.
  cbv zeta. unfold process_bed_file.
  assert (C0 : file_consistent (mkFile 0 0 0 [])).
  { unfold file_consistent. cbn. repeat split; lia. }
  destruct (process_bed_lines_consistent flank_size min_coord skip_invalid
              (readlines input) 1 _ C0) as (C & Hle & Heq).
  cbn [lines_read] in Hle, Heq.
  split; [exact C|]. split; [lia|]. split; [exact Heq|].
  intros ->. unfold main_status.
  now rewrite process_bed_lines_skip_invalid.
Qed.

Lemma expander_run_is_consistent_witness :
  let r := process_bed_file (short_row ++ String LF scenario_bed_line) 1000 0 true in
  file_consistent (fst r)
  /\ lines_read (fst r)
     = Z.of_nat (List.length (readlines (short_row ++ String LF scenario_bed_line)))
  /\ snd r = None /\ main_status r = 0.
Proof.
  cbv zeta.
  destruct (expander_run_is_consistent (short_row ++ String LF scenario_bed_line)
              1000 0 true) as (C & _ & Heq & Hs).
  destruct (Hs eq_refl) as [Hn Hm].
  split; [exact C|]. split; [exact (Heq Hn)|]. split; assumption.
Defined.

(** The first invalid line stops the loop; the lines before it are
    processed as with [skip_invalid]. *)
Lemma process_bed_lines_fails_iff (flank_size min_coord : Z)
  (lines : list string) (line_num : Z) (st : file_state) :
  snd (process_bed_lines flank_size min_coord false line_num st lines) <> None
  <-> Exists invalid_line lines.
Proof.
  revert line_num st. induction lines as [|line rest IH]; intros line_num st;
    cbn [process_bed_lines].
  - split; [intros H; now elim H | intros H; inversion H].
  - destruct (process_bed_line line flank_size min_coord line_num false)
      as [rows|e] eqn:P.
    + rewrite IH. split; [now right|].
      intros H. inversion H as [? ? Hi|]; subst; [|assumption].
      apply (process_bed_line_raises_iff line flank_size min_coord line_num)
        in Hi as [e He]. congruence.
    + cbn [snd]. split; [|discriminate]. intros _. left.
      apply (process_bed_line_raises_iff line flank_size min_coord line_num).
      eauto.
Qed.

(** X10. Without [skip_invalid], a run of the expander fails (and [main]
    returns 2) exactly when the input holds an invalid line. *)
Theorem run_fails_exactly_on_invalid_input (input : string)
  (flank_size min_coord : Z) :
  main_status (process_bed_file input flank_size min_coord false) = 2
  <-> Exists invalid_line (readlines input).
Proof.
  unfold process_bed_file.
  rewrite <- (process_bed_lines_fails_iff flank_size min_coord (readlines input) 1
                (mkFile 0 0 0 [])).
  unfold main_status.
  destruct (snd (process_bed_lines flank_size min_coord false 1 (mkFile 0 0 0 [])
                   (readlines input))).
  - split; [discriminate | reflexivity].
  - split; [discriminate | intros H; now elim H].
Qed.

End BedProcessorRuns.

(* ================================================================== *)
(** * The converter followed by the flank expander *)
(* ================================================================== *)

Module PipelineFacts.

Import Py Re Vcf2bed BedProcessor Bed Vcf2bedSpec BedProcessorSpec RunSpec
  PyFacts ReFacts Vcf2bedFacts BedProcessorFacts BedProcessorRuns.

Lemma primary_row_join (line : string) (pos end_pos : Z) :
  primary_row line pos end_pos
  = join tab (primary_fields line pos end_pos) ++ String LF EmptyString.
Proof. reflexivity. Qed.

Lemma lstrip_head (s : string) :
  lstrip s = EmptyString \/
  exists c r, lstrip s = String c r /\ isspace c = false.
Proof.
  induction s as [|c s IH]; [now left|]. cbn [lstrip].
  destruct (isspace c) eqn:E; [exact IH | right; eauto].
Qed.

Lemma split_char_single (sep : ascii) : split_char sep EmptyString = [EmptyString].
Proof. reflexivity. Qed.

(** The first column of a line with several columns starts with a
    character that is not white space. *)
Lemma first_field_head (line : string) :
  (2 <= List.length (fields_of line))%nat ->
  exists c r r',
    strip line = String c r /\ item (fields_of line) 0 = String c r' /\
    isspace c = false.
Proof.
  unfold fields_of, strip. intros H.
  destruct (lstrip_head (rstrip line)) as [E | (c & r & E & Hc)].
  - rewrite E in H. cbn in H. lia.
  - rewrite E. exists c, r. cbn [split_char].
    destruct (Ascii.eqb_spec c TAB) as [->|_]; [discriminate Hc|].
    destruct (split_char_cons TAB r) as (h & t & ->).
    exists h. now repeat split.
Qed.

Lemma ends_nonspace_app (a b : string) :
  b <> EmptyString -> ends_nonspace (a ++ b) = ends_nonspace b.
Proof.
  intros Hb. induction a as [|c a IH]; [reflexivity|].
  change (String c a ++ b) with (String c (a ++ b)). cbn [ends_nonspace].
  destruct (a ++ b) eqn:E; [|exact IH].
  destruct a; [cbn in E; congruence | discriminate E].
Qed.

Lemma ends_nonspace_nonempty (s : string) :
  ends_nonspace s = true -> s <> EmptyString.
Proof. destruct s; [discriminate | discriminate]. Qed.

Lemma ends_nonspace_join (l : list string) (last_field : string) :
  ends_nonspace last_field = true ->
  ends_nonspace (join tab (l ++ [last_field])) = true.
Proof.
  intros H. induction l as [|x l IH]; [exact H|].
  rewrite <- app_comm_cons.
  destruct (l ++ [last_field])%list as [|y l'] eqn:E;
    [destruct l; discriminate E|].
  change (join tab (x :: y :: l')) with (x ++ tab ++ join tab (y :: l')).
  rewrite ends_nonspace_app; [|discriminate].
  rewrite ends_nonspace_app; [exact IH | now apply ends_nonspace_nonempty].
Qed.

Lemma strip_row (s : string) (c : ascii) (r : string) :
  s = String c r -> isspace c = false -> ends_nonspace s = true ->
  strip (s ++ String LF EmptyString) = s.
Proof.
  intros Es Hc He. unfold strip.
  rewrite rstrip_snoc_space by reflexivity.
  rewrite (rstrip_ends_nonspace _ He). subst s. cbn [lstrip]. now rewrite Hc.
Qed.

Lemma search_info_contains (name s v : string) :
  search_info name s = Some v -> contains (name ++ "=") s = true.
Proof.
  intros H. destruct (contains (name ++ "=") s) eqn:C; [reflexivity|].
  rewrite (contains_search_info _ _ C) in H. discriminate.
Qed.

Lemma prefix_hash (c : ascii) (r r' : string) :
  prefix "#" (String c r) = prefix "#" (String c r').
Proof.
  cbn [prefix]. destruct (ascii_dec "#" c) as [_|_]; [|reflexivity].
  now destruct r, r'.
Qed.

(** The expander reads the primary row of a record as the record the
    converter wrote. *)
Lemma primary_row_sv_line (line : string) (pos end_pos : Z) (svtype : string) :
  data_line line pos end_pos ->
  startswith (strip line) "#" = false ->
  ends_nonspace (item (fields_of line) 8) = true ->
  svtype_of line = Some svtype ->
  strip (primary_row line pos end_pos) = join tab (primary_fields line pos end_pos)
  /\ sv_line (primary_row line pos end_pos) (primary_fields line pos end_pos)
       (pos - 1) end_pos svtype.
Proof.
  intros (_ & Hlen & _ & _) Hh He Hsv.
  destruct (first_field_head line) as (c & r & r' & Es & E0 & Hc); [lia|].
  assert (Hjoin : exists rest,
             join tab (primary_fields line pos end_pos) = String c rest).
  { unfold primary_fields. rewrite E0. cbn [join append]. eauto. }
  destruct Hjoin as [rest Hj].
  assert (Hends : ends_nonspace (join tab (primary_fields line pos end_pos)) = true).
  { unfold primary_fields.
    apply (ends_nonspace_join
             [item (fields_of line) 0; str (pos - 1); str end_pos;
              item (fields_of line) 2; item (fields_of line) 3;
              item (fields_of line) 4; item (fields_of line) 5;
              item (fields_of line) 6; item (fields_of line) 7]).
    exact He. }
  assert (S : strip (primary_row line pos end_pos)
              = join tab (primary_fields line pos end_pos)).
  { rewrite primary_row_join. now apply (strip_row _ c rest). }
  assert (F : split_char TAB (join tab (primary_fields line pos end_pos))
              = primary_fields line pos end_pos).
  { unfold tab. apply split_char_join; [discriminate|].
    unfold primary_fields.
    repeat constructor; try apply str_lacks_tab; apply field_lacks_tab. }
  split; [exact S|]. unfold sv_line. rewrite S, F.
  split; [rewrite Hj; discriminate|].
  split.
  { unfold startswith in *. rewrite Hj. rewrite Es in Hh.
    now rewrite (prefix_hash c rest r). }
  split; [reflexivity|].
  split; [cbn; lia|].
  split; [apply int_str|]. split; [apply int_str|].
  exists (item (fields_of line) 7). split; [|exact Hsv].
  unfold find_info, primary_fields. cbn [List.length item nth].
  unfold svtype_of, extract_info_field in Hsv.
  fold (item (fields_of line) 7).
  pose proof (search_info_contains _ _ _ Hsv) as C.
  change ("SVTYPE" ++ "=") with "SVTYPE=" in C. now rewrite C.
Qed.

(** X11. The expander applied to the primary row the converter wrote for
    a record (one that does not start with [#] and whose tenth output
    column does not end in white space) treats it as that record: same
    SVTYPE, start [pos - 1], same end. A DEL at [pos] with end [E] gives
    [max(min_coord, pos - 1 - F), E + F); a DUP or INV gives the two
    flanks; any other type gives the row back without its line feed. *)
Theorem converter_row_is_expanded (line : string) (pos end_pos : Z)
  (svtype : string) (flank_size min_coord line_num : Z) (skip_invalid : bool) :
  data_line line pos end_pos ->
  startswith (strip line) "#" = false ->
  ends_nonspace (item (fields_of line) 8) = true ->
  svtype_of line = Some svtype ->
  let fields := primary_fields line pos end_pos in
  process_bed_line (primary_row line pos end_pos) flank_size min_coord line_num
    skip_invalid
  = Ok (if String.eqb svtype "DEL" then
          [flank_row fields (Z.max min_coord (pos - 1 - flank_size))
             (end_pos + flank_size)]
        else if String.eqb svtype "DUP" || String.eqb svtype "INV" then
          [flank_row fields (Z.max min_coord (pos - 1 - flank_size))
             (pos - 1 + flank_size);
           flank_row fields (Z.max min_coord (end_pos - flank_size))
             (end_pos + flank_size)]
        else [join tab fields])
  /\ row_interval
       (flank_row fields (Z.max min_coord (pos - 1 - flank_size))
          (end_pos + flank_size))
     = Some (Z.max min_coord (pos - 1 - flank_size), end_pos + flank_size).
Proof.
  intros D Hh He Hsv fields.
  destruct (primary_row_sv_line line pos end_pos svtype D Hh He Hsv) as [S SV].
  split.
  - rewrite (process_bed_line_sv _ _ _ _ _ flank_size min_coord line_num
               skip_invalid SV).
    now rewrite S.
  - destruct SV as (_ & _ & Hf & Hlen & _).
    now apply (flank_row_interval (strip (primary_row line pos end_pos))).
Qed.

Lemma converter_row_is_expanded_witness :
  let fields := primary_fields scenario_vcf_line 1000 2000 in
  process_bed_line (primary_row scenario_vcf_line 1000 2000) 1000 0 1 false
  = Ok (if String.eqb "DEL" "DEL" then
          [flank_row fields (Z.max 0 (1000 - 1 - 1000)) (2000 + 1000)]
        else if String.eqb "DEL" "DUP" || String.eqb "DEL" "INV" then
          [flank_row fields (Z.max 0 (1000 - 1 - 1000)) (1000 - 1 + 1000);
           flank_row fields (Z.max 0 (2000 - 1000)) (2000 + 1000)]
        else [join tab fields])
  /\ row_interval (flank_row fields (Z.max 0 (1000 - 1 - 1000)) (2000 + 1000))
     = Some (Z.max 0 (1000 - 1 - 1000), 2000 + 1000).
Proof.
  apply (converter_row_is_expanded scenario_vcf_line 1000 2000 "DEL" 1000 0 1 false).
  - repeat split; try reflexivity; try (vm_compute; discriminate).
  - reflexivity.
  - reflexivity.
  - reflexivity.
Defined.

End PipelineFacts.

(* ================================================================== *)
(** * Whole runs of the aggregator (src/squash_intersect.py) *)
(* ================================================================== *)

Module SquashIntersectRuns.

Import Py SquashIntersect SquashIntersectSpec RunSpec PyFacts SquashIntersectFacts.

(** ** The keys of the aggregate *)

Lemma in_keys_append_to (x k : string) (e : list string) (d : variants_dict) :
  In x (map fst (append_to k e d)) <-> x = k \/ In x (map fst d).
Proof.
  induction d as [|[k' v] d IH]; cbn [append_to map fst In].
  - intuition.
  - destruct (String.eqb_spec k' k) as [->|N]; cbn [map fst In].
    + intuition.
    + rewrite IH. intuition.
Qed.

Lemma nodup_append_to (k : string) (e : list string) (d : variants_dict) :
  NoDup (map fst d) -> NoDup (map fst (append_to k e d)).
Proof.
  induction d as [|[k' v] d IH]; cbn [append_to map fst]; intros H.
  - repeat constructor. intros [].
  - inversion H as [|? ? Hn Hd]; subst.
    destruct (String.eqb_spec k' k) as [->|N]; cbn [map fst].
    + now constructor.
    + constructor; [|now apply IH].
      rewrite in_keys_append_to. intros [->|Hi]; [now elim N | contradiction].
Qed.

Lemma squash_lines_nodup (delimiter : string) (skip_header : bool)
  (lines : list string) (line_num : Z) (variants final : variants_dict) :
  squash_lines delimiter skip_header line_num variants lines = Ok final ->
  NoDup (map fst variants) -> NoDup (map fst final).
Proof.
  revert line_num variants. induction lines as [|line rest IH];
    intros line_num variants; cbn [squash_lines].
  - now intros [= <-].
  - destruct ((line_num =? 1) && skip_header); [apply IH|].
    destruct (process_bed_line line delimiter line_num) as [[[id elements]|]|];
      cbn [bind]; [| apply IH | discriminate].
    intros H Hn. apply (IH _ _ H). now apply nodup_append_to.
Qed.

Lemma lookup_none_keys (key : string) (d : variants_dict) :
  lookup key d = None <-> ~ In key (map fst d).
Proof.
  induction d as [|[k v] d IH]; cbn [lookup map fst In]; [tauto|].
  destruct (String.eqb_spec k key) as [->|N].
  - split; [discriminate | intros H; elim H; now left].
  - rewrite IH. intuition.
Qed.

Lemma length_insert_sorted (k : string) (l : list string) :
  List.length (insert_sorted k l) = S (List.length l).
Proof.
  induction l as [|x l IH]; cbn [insert_sorted]; [reflexivity|].
  destruct (String.leb k x); cbn [List.length]; [reflexivity | now rewrite IH].
Qed.

Lemma length_sorted (l : list string) : List.length (sorted l) = List.length l.
Proof.
  induction l as [|x l IH]; [reflexivity|]. cbn [sorted fold_right].
  fold (sorted l). now rewrite length_insert_sorted, IH.
Qed.

(** X12. The aggregate holds every key once, and a key is in it exactly
    when some accepted row of the input carries it; the output has one
    row per key, after the header line when one is written. *)
Theorem one_row_per_key (lines : list string) (delimiter : string)
  (skip_header no_header : bool) (variants : variants_dict) :
  squash_variants lines delimiter skip_header = Ok variants ->
  NoDup (map fst variants)
  /\ (forall key,
        In key (map fst variants)
        <-> contributions key delimiter skip_header 1 lines <> [])
  /\ List.length (write_output variants no_header)
     = (List.length variants + if no_header then 0 else 1)%nat.
Proof.
  intros H. unfold squash_variants in H. split; [|split].
  - apply (squash_lines_nodup _ _ _ _ _ _ H). constructor.
  - intros key.
    pose proof (squash_lines_lookup key _ _ _ _ _ _ H) as E.
    cbn [lookup extended] in E.
    destruct (contributions key delimiter skip_header 1 lines) as [|c cs].
    + apply lookup_none_keys in E. split; [contradiction | congruence].
    + split; [discriminate|]. intros _.
      destruct (in_dec string_dec key (map fst variants)) as [Hi|Hn];
        [exact Hi|].
      apply lookup_none_keys in Hn. congruence.
  - unfold write_output. rewrite length_app, length_map, length_sorted, length_map.
    destruct no_header; cbn [List.length]; lia.
Qed.

Lemma one_row_per_key_witness :
  let lines := [row_with "v1" "chr1"; row_with "v2" "chr2"; row_with "v1" "chr9"] in
  let variants :=
    [("v1", [["chr1"; "11"; "19"; "AluY"; "SINE/Alu"; "+"; "1"; "300"; "7"];
             ["chr9"; "11"; "19"; "AluY"; "SINE/Alu"; "+"; "1"; "300"; "7"]]);
     ("v2", [["chr2"; "11"; "19"; "AluY"; "SINE/Alu"; "+"; "1"; "300"; "7"]])] in
  NoDup (map fst variants)
  /\ (forall key,
        In key (map fst variants)
        <-> contributions key (String TAB EmptyString) false 1 lines <> [])
  /\ List.length (write_output variants false)
     = (List.length variants + if false then 0 else 1)%nat.
Proof.
  cbv zeta.
  apply (one_row_per_key
           [row_with "v1" "chr1"; row_with "v2" "chr2"; row_with "v1" "chr9"]
           (String TAB EmptyString) false false).
  reflexivity.
Defined.

(** ** The order of the output *)

Lemma leb_total (a b : string) : String.leb a b = false -> String.leb b a = true.
Proof.
  unfold String.leb. rewrite (String.compare_antisym b a).
  destruct (String.compare a b); cbn; congruence.
Qed.

Lemma ascending_cons (x : string) (l : list string) :
  ascending (x :: l)
  <-> match l with [] => True | y :: _ => String.leb x y = true end
      /\ ascending l.
Proof. destruct l; cbn [ascending]; tauto. Qed.

Lemma insert_sorted_head (k x : string) (l : list string) :
  exists y rest, insert_sorted k (x :: l) = y :: rest /\ (y = k \/ y = x).
Proof.
  cbn [insert_sorted]. destruct (String.leb k x); eauto.
Qed.

Lemma insert_sorted_ascending (k : string) (l : list string) :
  ascending l -> ascending (insert_sorted k l).
Proof.
  induction l as [|x l IH]; intros H; [exact I|].
  cbn [insert_sorted]. destruct (String.leb k x) eqn:E.
  - apply ascending_cons. split; [exact E | exact H].
  - apply ascending_cons in H as [Hx Hl]. apply ascending_cons.
    split; [|now apply IH].
    destruct l as [|y l]; cbn [insert_sorted].
    + now apply leb_total.
    + destruct (String.leb k y); [now apply leb_total | exact Hx].
Qed.

Lemma sorted_ascending (l : list string) : ascending (sorted l).
Proof.
  induction l as [|x l IH]; [exact I|]. cbn [sorted fold_right].
  now apply insert_sorted_ascending.
Qed.

Lemma insert_sorted_perm (k : string) (l : list string) :
  Permutation (insert_sorted k l) (k :: l).
Proof.
  induction l as [|x l IH]; cbn [insert_sorted]; [reflexivity|].
  destruct (String.leb k x); [reflexivity|].
  rewrite IH. apply perm_swap.
Qed.

Lemma sorted_perm (l : list string) : Permutation (sorted l) l.
Proof.
  induction l as [|x l IH]; [reflexivity|]. cbn [sorted fold_right].
  fold (sorted l). rewrite insert_sorted_perm. now constructor.
Qed.

(** X13. The rows of the output follow the ascending order of their
    keys (by code points), and the keys of the rows are a rearrangement
    of the keys of the aggregate: no key is dropped and none is written
    twice. *)
Theorem output_is_sorted_by_key (variants : variants_dict) :
  exists keys,
    write_output variants true
    = map (fun key =>
             format_output_line key
               (match lookup key variants with Some v => v | None => [] end)
             ++ String LF EmptyString) keys
    /\ ascending keys
    /\ Permutation keys (map fst variants).
Proof.
  exists (sorted (map fst variants)). split; [reflexivity|].
  split; [apply sorted_ascending | apply sorted_perm].
Qed.

(** ** Rows accepted and skipped *)

Lemma process_bed_line_never_raises (line delimiter : string) (line_num : Z) :
  delimiter <> EmptyString ->
  exists r, process_bed_line line delimiter line_num = Ok r.
Proof.
  intros Hd. unfold process_bed_line.
  destruct (String.eqb (strip line) EmptyString || startswith (strip line) "#");
    [eauto|].
  unfold split. destruct delimiter as [|c d]; [congruence|].
  destruct (Z.of_nat (List.length _) <? 19); eauto.
Qed.

(** X14. With a delimiter that is not empty the aggregation never
    fails, whatever the lines of the input are: no line, blank, comment,
    too short or otherwise, raises an error. *)
Theorem squash_never_fails (lines : list string) (delimiter : string)
  (skip_header : bool) :
  delimiter <> EmptyString ->
  exists variants, squash_variants lines delimiter skip_header = Ok variants.
Proof.
  intros Hd. unfold squash_variants. generalize 1 at 1. generalize (@nil (string * list (list string))).
  induction lines as [|line rest IH]; intros variants line_num;
    cbn [squash_lines]; [eauto|].
  destruct ((line_num =? 1) && skip_header); [apply IH|].
  destruct (process_bed_line_never_raises line delimiter line_num Hd) as [r ->].
  cbn [bind]. destruct r as [[id elements]|]; apply IH.
Qed.

Lemma squash_never_fails_witness :
  exists variants,
    squash_variants [""; "# comment"; "a,b,c"; row_with "v1" "chr1"] "," true
    = Ok variants.
Proof.
  apply (squash_never_fails [""; "# comment"; "a,b,c"; row_with "v1" "chr1"] "," true).
  discriminate.
Defined.

Lemma squash_lines_empty_delimiter (skip_header : bool) (lines : list string)
  (line_num : Z) (variants : variants_dict) :
  skip_header = false \/ 2 <= line_num ->
  (exists e, squash_lines EmptyString skip_header line_num variants lines = Raise e)
  <-> Exists (fun line => strip line <> EmptyString
                          /\ startswith (strip line) "#" = false) lines.
Proof.
  revert line_num variants. induction lines as [|line rest IH];
    intros line_num variants Hn; cbn [squash_lines].
  - split; [intros [e H]; discriminate H | intros H; inversion H].
  - assert (Hs : (line_num =? 1) && skip_header = false).
    { destruct Hn as [->|Hn]; [apply andb_false_r|].
      destruct (Z.eqb_spec line_num 1); [lia | reflexivity]. }
    assert (Hn' : skip_header = false \/ 2 <= line_num + 1)
      by (destruct Hn; [now left | right; lia]).
    rewrite Hs, Exists_cons. unfold process_bed_line. cbv zeta.
    destruct (String.eqb_spec (strip line) EmptyString) as [E|E];
      cbn [orb bind].
    + rewrite (IH _ _ Hn'). tauto.
    + destruct (startswith (strip line) "#") eqn:C; cbn [split bind].
      * rewrite (IH _ _ Hn'). intuition congruence.
      * split; [now left | eauto].
Qed.

(** X16. With an empty delimiter the aggregation fails exactly when a
    line that is processed (any line, but the first one under
    [skip_header]) is neither blank nor a comment: [split] refuses the
    empty separator, and the error is raised again. *)
Theorem empty_delimiter_fails_on_content (lines : list string)
  (skip_header : bool) :
  (exists e, squash_variants lines EmptyString skip_header = Raise e)
  <-> Exists (fun line => strip line <> EmptyString
                          /\ startswith (strip line) "#" = false)
        (if skip_header then tl lines else lines).
Proof.
  unfold squash_variants. destruct skip_header.
  - destruct lines as [|line rest]; cbn [squash_lines tl].
    + split; [intros [e H]; discriminate H | intros H; inversion H].
    + cbn [Z.eqb Pos.eqb andb]. change (1 + 1) with 2.
      apply squash_lines_empty_delimiter. right. lia.
  - apply squash_lines_empty_delimiter. now left.
Qed.

Lemma total_append_to (k : string) (e : list string) (d : variants_dict) :
  total_tuples (append_to k e d) = S (total_tuples d).
Proof.
  unfold total_tuples. induction d as [|[k' v] d IH]; cbn [append_to]; [reflexivity|].
  destruct (String.eqb k' k); cbn [map snd fst];
    change (list_sum (?n :: ?l)) with (n + list_sum l)%nat.
  - rewrite length_app. cbn [List.length]. lia.
  - rewrite IH. lia.
Qed.

Lemma squash_lines_total (delimiter : string) (skip_header : bool)
  (lines : list string) (line_num : Z) (variants final : variants_dict) :
  squash_lines delimiter skip_header line_num variants lines = Ok final ->
  total_tuples final
  = (total_tuples variants
     + List.length (accepted delimiter skip_header line_num lines))%nat.
Proof.
  revert line_num variants. induction lines as [|line rest IH];
    intros line_num variants; cbn [squash_lines accepted].
  - intros [= <-]. cbn. lia.
  - destruct ((line_num =? 1) && skip_header); [apply IH|].
    destruct (process_bed_line line delimiter line_num) as [[[id elements]|]|];
      cbn [bind]; [| apply IH | discriminate].
    intros H. rewrite (IH _ _ H), total_append_to. cbn [List.length]. lia.
Qed.

(** X15. Every accepted row of the input contributes exactly one tuple
    to the aggregate, none is lost and none is counted twice, and every
    tuple kept has exactly nine fields. *)
Theorem every_row_is_counted_once (lines : list string) (delimiter : string)
  (skip_header : bool) (variants : variants_dict) :
  squash_variants lines delimiter skip_header = Ok variants ->
  total_tuples variants = List.length (accepted delimiter skip_header 1 lines)
  /\ forall key element_lists,
       lookup key variants = Some element_lists ->
       Forall (fun t => List.length t = 9%nat) element_lists.
Proof.
  intros H. unfold squash_variants in H. split.
  - now rewrite (squash_lines_total _ _ _ _ _ _ H).
  - intros key element_lists Hl.
    pose proof (squash_lines_lookup key _ _ _ _ _ _ H) as E.
    rewrite Hl in E. cbn [lookup extended] in E.
    pose proof (contributions_width key delimiter skip_header lines 1) as W.
    destruct (contributions key delimiter skip_header 1 lines);
      [discriminate|]. now inversion E.
Qed.

Lemma every_row_is_counted_once_witness :
  let lines := [row_with "v1" "chr1"; "short"; row_with "v2" "chr2"; row_with "v1" "chr9"] in
  let variants :=
    [("v1", [["chr1"; "11"; "19"; "AluY"; "SINE/Alu"; "+"; "1"; "300"; "7"];
             ["chr9"; "11"; "19"; "AluY"; "SINE/Alu"; "+"; "1"; "300"; "7"]]);
     ("v2", [["chr2"; "11"; "19"; "AluY"; "SINE/Alu"; "+"; "1"; "300"; "7"]])] in
  total_tuples variants
  = List.length (accepted (String TAB EmptyString) false 1 lines)
  /\ forall key element_lists,
       lookup key variants = Some element_lists ->
       Forall (fun t => List.length t = 9%nat) element_lists.
Proof.
  cbv zeta.
  apply (every_row_is_counted_once
           [row_with "v1" "chr1"; "short"; row_with "v2" "chr2"; row_with "v1" "chr9"]
           (String TAB EmptyString) false).
  reflexivity.
Defined.

End SquashIntersectRuns.
